(** * Sign-Language-To-Text-Converter: the landmark classifier

    A shallow embedding of [PythonBackend/Hands/*/{left,right}.py] and of
    the per-frame classification loop of [PythonBackend/ws_server.py].

    Number model.  The source computes on Python floats.  Coordinates and
    every derived quantity are embedded as real numbers ([R]): [math.sqrt]
    is [sqrt], [math.acos] is [acos] on its domain, [abs] is [Rabs],
    [max]/[min] are [Rmax]/[Rmin].  Rounding, infinities and NaN are not
    modelled; every statement below is about this exact-arithmetic reading
    of the code.

    Python values.  A landmark argument may be [None] or a list, hence
    [option (list Point)].  Subscripting and [len] raise as in Python, so
    detectors return in the [result] monad. *)

From Stdlib Require Import Reals Lra Lia List String Bool Arith.
Import ListNotations.
Open Scope string_scope.
Open Scope list_scope.
Open Scope R_scope.

(* ------------------------------------------------------------------ *)
(** ** Python runtime: exceptions, comparisons, subscripting           *)
(* ------------------------------------------------------------------ *)

Inductive exn : Type :=
| TypeError    (* subscripting or len() of None *)
| IndexError   (* list index out of range *)
| ValueError   (* math domain error *)
| KeyError     (* missing dictionary key *)
| AttributeError (* an attribute the object does not have *)
| LookupError. (* a reference that names no object of the heap *)

Inductive result (A : Type) : Type :=
| Ok (a : A)
| Raise (e : exn).
Arguments Ok {A} a.
Arguments Raise {A} e.

Definition bind {A B} (m : result A) (k : A -> result B) : result B :=
  match m with
  | Ok a => k a
  | Raise e => Raise e
  end.

Notation "v <- m ;; k" := (bind m (fun v => k))
  (at level 61, m at next level, right associativity).

Definition Rltb (a b : R) : bool := if Rlt_dec a b then true else false.
Definition Rleb (a b : R) : bool := if Rle_dec a b then true else false.
Notation "a <? b" := (Rltb a b) : R_scope.
Notation "a >? b" := (Rltb b a) : R_scope.
Notation "a <=? b" := (Rleb a b) : R_scope.
Notation "a >=? b" := (Rleb b a) : R_scope.

(** What a detection function returns: a [str] or a [bool]. *)
Inductive pyval : Type :=
| PStr (s : string)
| PBool (b : bool).

Definition as_str (r : result string) : result pyval :=
  v <- r ;; Ok (PStr v).
Definition as_bool (r : result bool) : result pyval :=
  v <- r ;; Ok (PBool v).

(** Truthiness, as tested by [if detected:]. *)
Definition truthy (v : pyval) : bool :=
  match v with
  | PStr s => negb (s =? "")%string
  | PBool b => b
  end.

(** [class Point]: [x], [y] and (in the C, D, E, F modules) [z = 0.0] by
    default.  The A and B modules declare a two-argument [Point] and their
    rules never read [z]. *)
Record Point : Type := mkPoint { x : R; y : R; z : R }.

(** [Point(x, y)] with the default [z=0.0]. *)
Definition Point_xy (a b : R) : Point := mkPoint a b 0.0.

(** [seq[i]] *)
Definition getitem {A} (seq : option (list A)) (i : nat) : result A :=
  match seq with
  | None => Raise TypeError
  | Some l =>
      match nth_error l i with
      | Some a => Ok a
      | None => Raise IndexError
      end
  end.

(** [len(seq)] *)
Definition len {A} (seq : option (list A)) : result nat :=
  match seq with
  | None => Raise TypeError
  | Some l => Ok (List.length l)
  end.

(** [not seq]: [None] and the empty list are falsy. *)
Definition not_ {A} (seq : option (list A)) : bool :=
  match seq with
  | None | Some [] => true
  | Some (_ :: _) => false
  end.

(** [all([...])] and [sum([...])] over booleans. *)
Definition all (bs : list bool) : bool := forallb (fun b => b) bs.
Definition sum_bools (bs : list bool) : nat :=
  fold_left (fun n (b : bool) => if b then S n else n) bs 0%nat.

(** The guard shared by the C, D, E and F detectors:
    [not landmarks or len(landmarks) < 21]. *)
Definition invalid_input {A} (landmarks : option (list A)) : bool :=
  not_ landmarks ||
  match landmarks with
  | Some l => (List.length l <? 21)%nat
  | None => false (* not reached: [not None] already holds *)
  end.

(* ------------------------------------------------------------------ *)
(** ** Hands/A/right.py                                                *)
(* ------------------------------------------------------------------ *)

Module A_right.

Definition detect_right_hand (points : option (list Point)) : result string :=
  p8 <- getitem points 8 ;; p6 <- getitem points 6 ;;
  p12 <- getitem points 12 ;; p10 <- getitem points 10 ;;
  p16 <- getitem points 16 ;; p14 <- getitem points 14 ;;
  p20 <- getitem points 20 ;; p18 <- getitem points 18 ;;
  let fingers_folded :=
    all [ p8.(y) >? p6.(y);
          p12.(y) >? p10.(y);
          p16.(y) >? p14.(y);
          p20.(y) >? p18.(y) ] in
  p4 <- getitem points 4 ;; p3 <- getitem points 3 ;;
  let thumb_extended := p4.(x) >? p3.(x) in
  Ok (if fingers_folded && thumb_extended then "A" else "").

End A_right.

(* ------------------------------------------------------------------ *)
(** ** Hands/A/left.py                                                 *)
(* ------------------------------------------------------------------ *)

Module A_left.

Definition detect_left_hand (points : option (list Point)) : result string :=
  p8 <- getitem points 8 ;; p5 <- getitem points 5 ;;
  p12 <- getitem points 12 ;; p9 <- getitem points 9 ;;
  p16 <- getitem points 16 ;; p13 <- getitem points 13 ;;
  p20 <- getitem points 20 ;; p17 <- getitem points 17 ;;
  let fingers_folded :=
    all [ p8.(y) >? p5.(y);
          p12.(y) >? p9.(y);
          p16.(y) >? p13.(y);
          p20.(y) >? p17.(y) ] in
  p4 <- getitem points 4 ;; p2 <- getitem points 2 ;;
  let thumb_extended := p4.(x) <? p2.(x) in
  Ok (if fingers_folded && thumb_extended then "A" else "").

End A_left.

(* ------------------------------------------------------------------ *)
(** ** Hands/B/right.py                                                *)
(* ------------------------------------------------------------------ *)

Module B_right.

(* Landmark indices *)
Definition WRIST := 0%nat.
Definition THUMB_IP := 2%nat.
Definition THUMB_TIP := 4%nat.
Definition INDEX_MCP := 5%nat.
Definition INDEX_TIP := 8%nat.
Definition MIDDLE_MCP := 9%nat.
Definition MIDDLE_TIP := 12%nat.
Definition RING_MCP := 13%nat.
Definition RING_TIP := 16%nat.
Definition PINKY_MCP := 17%nat.
Definition PINKY_TIP := 20%nat.

(** [class RightHandGestureDetector]; [__init__] stores the threshold,
    whose default is [0.1]. *)
Record RightHandGestureDetector : Type :=
  { thumb_alignment_threshold : R }.

Definition init_default : RightHandGestureDetector :=
  {| thumb_alignment_threshold := 0.1 |}.

Definition _is_right_hand_palm_visible (self : RightHandGestureDetector)
    (landmarks : option (list Point)) : result bool :=
  i1 <- getitem landmarks INDEX_MCP ;; w1 <- getitem landmarks WRIST ;;
  i2 <- getitem landmarks INDEX_MCP ;; w2 <- getitem landmarks WRIST ;;
  p1 <- getitem landmarks PINKY_MCP ;; w3 <- getitem landmarks WRIST ;;
  p2 <- getitem landmarks PINKY_MCP ;; w4 <- getitem landmarks WRIST ;;
  let wrist_to_index_x := i1.(x) - w1.(x) in
  let wrist_to_index_y := i2.(y) - w2.(y) in
  let wrist_to_pinky_x := p1.(x) - w3.(x) in
  let wrist_to_pinky_y := p2.(y) - w4.(y) in
  let cross_product :=
    wrist_to_index_x * wrist_to_pinky_y - wrist_to_index_y * wrist_to_pinky_x in
  Ok (cross_product >? 0).

Definition _are_four_fingers_extended (self : RightHandGestureDetector)
    (landmarks : option (list Point)) : result bool :=
  it <- getitem landmarks INDEX_TIP ;; im <- getitem landmarks INDEX_MCP ;;
  mt <- getitem landmarks MIDDLE_TIP ;; mm <- getitem landmarks MIDDLE_MCP ;;
  rt <- getitem landmarks RING_TIP ;; rm <- getitem landmarks RING_MCP ;;
  pt <- getitem landmarks PINKY_TIP ;; pm <- getitem landmarks PINKY_MCP ;;
  Ok (all [ it.(y) <? im.(y);
            mt.(y) <? mm.(y);
            rt.(y) <? rm.(y);
            pt.(y) <? pm.(y) ]).

Definition _is_thumb_folded_against_palm (self : RightHandGestureDetector)
    (landmarks : option (list Point)) : result bool :=
  tt_ <- getitem landmarks THUMB_TIP ;; im <- getitem landmarks INDEX_MCP ;;
  let thumb_to_index_dist_sq :=
    (tt_.(x) - im.(x)) ^ 2 + (tt_.(y) - im.(y)) ^ 2 in
  ti <- getitem landmarks THUMB_IP ;;
  let thumb_to_base_dist_sq :=
    (tt_.(x) - ti.(x)) ^ 2 + (tt_.(y) - ti.(y)) ^ 2 in
  let distance_check := thumb_to_index_dist_sq <? thumb_to_base_dist_sq in
  w <- getitem landmarks WRIST ;;
  let wrist_x := w.(x) in
  let index_x := im.(x) in
  let thumb_x := tt_.(x) in
  let position_check :=
    if wrist_x <? index_x
    then (wrist_x <? thumb_x) && (thumb_x <? index_x)
    else (index_x <? thumb_x) && (thumb_x <? wrist_x) in
  Ok (distance_check && position_check).

Definition _is_thumb_aligned_horizontally (self : RightHandGestureDetector)
    (landmarks : option (list Point)) : result bool :=
  tt_ <- getitem landmarks THUMB_TIP ;; im <- getitem landmarks INDEX_MCP ;;
  let y_difference := Rabs (tt_.(y) - im.(y)) in
  Ok (y_difference <? self.(thumb_alignment_threshold)).

(** Python's [a and b and c] evaluates [b] only when [a] is true. *)
Definition and_then (a : result bool) (b : result bool) : result bool :=
  v <- a ;; if v then b else Ok false.

Definition detect_right_hand_b_gesture (self : RightHandGestureDetector)
    (landmarks : option (list Point)) : result string :=
  n <- len landmarks ;;
  if negb (n =? 21)%nat then Ok ""
  else
    visible <- _is_right_hand_palm_visible self landmarks ;;
    if negb visible then Ok ""
    else
      ok <- and_then (_are_four_fingers_extended self landmarks)
              (and_then (_is_thumb_folded_against_palm self landmarks)
                        (_is_thumb_aligned_horizontally self landmarks)) ;;
      if ok then Ok "B" else Ok "".

Definition detect_right_hand (lm : option (list Point)) : result string :=
  let detector := init_default in
  detect_right_hand_b_gesture detector lm.

(** [detect_from_mediapipe_right_hand]: the tracker's landmarks (with
    their [x], [y], [z]) are turned into two-argument [Point]s first. *)
Definition detect_from_mediapipe_right_hand (hand_landmarks : list Point)
    : result string :=
  let points := map (fun lm => Point_xy lm.(x) lm.(y)) hand_landmarks in
  detect_right_hand (Some points).

End B_right.

(* ------------------------------------------------------------------ *)
(** ** Geometry toolkit                                                *)
(* ------------------------------------------------------------------ *)

(** [distance], [vec] and [angle_deg] are repeated verbatim at the top of
    the C, D, E and F modules; they are embedded once.  A [np.ndarray] of
    three floats is a triple. *)

Definition ndarray3 : Type := (R * R * R)%type.

Definition distance (a b : Point) : R :=
  sqrt ((a.(x) - b.(x)) ^ 2 + (a.(y) - b.(y)) ^ 2 + (a.(z) - b.(z)) ^ 2).

Definition vec (a b : Point) : ndarray3 :=
  (b.(x) - a.(x), b.(y) - a.(y), b.(z) - a.(z)).

(** [np.linalg.norm], [np.dot], [np.cross] on such triples. *)
Definition norm (v : ndarray3) : R :=
  let '(v0, v1, v2) := v in sqrt (v0 ^ 2 + v1 ^ 2 + v2 ^ 2).

Definition dot (u v : ndarray3) : R :=
  let '(u0, u1, u2) := u in
  let '(v0, v1, v2) := v in
  u0 * v0 + u1 * v1 + u2 * v2.

Definition cross (u v : ndarray3) : ndarray3 :=
  let '(u0, u1, u2) := u in
  let '(v0, v1, v2) := v in
  (u1 * v2 - u2 * v1, u2 * v0 - u0 * v2, u0 * v1 - u1 * v0).

Definition item2 (v : ndarray3) : R := let '(_, _, v2) := v in v2.

(** [math.acos] raises [ValueError] outside [-1, 1]. *)
Definition math_acos (v : R) : result R :=
  if (-1 <=? v) && (v <=? 1) then Ok (acos v) else Raise ValueError.

(** [math.degrees] *)
Definition math_degrees (r : R) : R := r * (180 / PI).

(** [angle_deg(a, b, c)]: the angle at point [b] (a-b-c), in degrees. *)
Definition angle_deg (a b c : Point) : result R :=
  let v1 := vec b a in
  let v2 := vec b c in
  let n1 := norm v1 in
  let n2 := norm v2 in
  if (n1 <? 1e-8) || (n2 <? 1e-8) then Ok 180.0
  else
    let cos_a := dot v1 v2 / (n1 * n2) in
    let cos_a := Rmax (-1.0) (Rmin 1.0 cos_a) in
    r <- math_acos cos_a ;;
    Ok (math_degrees r).

(** [[Point(1 - lm.x, lm.y, lm.z) for lm in landmarks]], the mirroring
    step of the C, D and F left-hand detectors, on values. *)
Definition mirror_point (lm : Point) : Point :=
  mkPoint (1 - lm.(x)) lm.(y) lm.(z).

Definition mirror (landmarks : list Point) : list Point :=
  map mirror_point landmarks.

(* ------------------------------------------------------------------ *)
(** ** Hands/D/right.py and Hands/D/left.py                            *)
(* ------------------------------------------------------------------ *)

(** The [debug] flag only adds printing and is left out throughout. *)

Module D_right.

(** the nested [is_curled] *)
Definition is_curled (mcp pip tip : Point) : result bool :=
  angle_val <- angle_deg mcp pip tip ;;
  Ok ((angle_val <? 120) || (distance tip mcp <? distance pip mcp * 0.95)).

Definition detect_right_hand (landmarks : option (list Point)) : result bool :=
  if invalid_input landmarks then Ok false
  else
    wrist <- getitem landmarks 0 ;;
    thumb_cmc <- getitem landmarks 1 ;; thumb_mcp <- getitem landmarks 2 ;;
    thumb_ip <- getitem landmarks 3 ;; thumb_tip <- getitem landmarks 4 ;;
    index_mcp <- getitem landmarks 5 ;; index_pip <- getitem landmarks 6 ;;
    index_dip <- getitem landmarks 7 ;; index_tip <- getitem landmarks 8 ;;
    middle_mcp <- getitem landmarks 9 ;; middle_pip <- getitem landmarks 10 ;;
    middle_dip <- getitem landmarks 11 ;; middle_tip <- getitem landmarks 12 ;;
    ring_mcp <- getitem landmarks 13 ;; ring_pip <- getitem landmarks 14 ;;
    ring_dip <- getitem landmarks 15 ;; ring_tip <- getitem landmarks 16 ;;
    pinky_mcp <- getitem landmarks 17 ;; pinky_pip <- getitem landmarks 18 ;;
    pinky_dip <- getitem landmarks 19 ;; pinky_tip <- getitem landmarks 20 ;;
    (* palm dimensions *)
    let palm_width := distance index_mcp pinky_mcp in
    let contact_threshold := Rmax (palm_width * 0.4) 0.03 in
    (* 1. index finger extended upward *)
    index_angle_pip <- angle_deg index_mcp index_pip index_tip ;;
    index_angle_dip <- angle_deg index_mcp index_dip index_tip ;;
    let index_points_up := index_tip.(y) <? index_mcp.(y) - 0.03 in
    let index_extended :=
      (index_angle_pip >? 150) && (index_angle_dip >? 140) && index_points_up in
    (* 2. other fingers curled *)
    middle_curled <- is_curled middle_mcp middle_pip middle_tip ;;
    ring_curled <- is_curled ring_mcp ring_pip ring_tip ;;
    pinky_curled <- is_curled pinky_mcp pinky_pip pinky_tip ;;
    let curled_count := sum_bools [middle_curled; ring_curled; pinky_curled] in
    (* 3. thumb touches curled fingers but not the index *)
    let thumb_to_middle := distance thumb_tip middle_tip in
    let thumb_to_ring := distance thumb_tip ring_tip in
    let thumb_to_pinky := distance thumb_tip pinky_tip in
    let thumb_to_index := distance thumb_tip index_tip in
    let thumb_contacts :=
      (thumb_to_middle <? contact_threshold) ||
      (thumb_to_ring <? contact_threshold) ||
      (thumb_to_pinky <? contact_threshold) in
    let thumb_not_touch_index :=
      thumb_to_index >? Rmax (palm_width * 0.25) 0.03 in
    (* 4. index separated from middle *)
    let index_middle_sep := distance index_tip middle_tip in
    let sep_ok := index_middle_sep >? Rmax (palm_width * 0.3) 0.05 in
    let all_criteria_met :=
      index_extended && (2 <=? curled_count)%nat && thumb_contacts &&
      thumb_not_touch_index && sep_ok in
    Ok all_criteria_met.

End D_right.

Module D_left.

Definition is_curled (mcp pip tip : Point) : result bool :=
  angle_val <- angle_deg mcp pip tip ;;
  Ok ((angle_val <? 120) || (distance tip mcp <? distance pip mcp * 0.95)).

Definition _detect_d_internal (landmarks : option (list Point)) : result bool :=
  wrist <- getitem landmarks 0 ;;
  thumb_cmc <- getitem landmarks 1 ;; thumb_mcp <- getitem landmarks 2 ;;
  thumb_ip <- getitem landmarks 3 ;; thumb_tip <- getitem landmarks 4 ;;
  index_mcp <- getitem landmarks 5 ;; index_pip <- getitem landmarks 6 ;;
  index_dip <- getitem landmarks 7 ;; index_tip <- getitem landmarks 8 ;;
  middle_mcp <- getitem landmarks 9 ;; middle_pip <- getitem landmarks 10 ;;
  middle_dip <- getitem landmarks 11 ;; middle_tip <- getitem landmarks 12 ;;
  ring_mcp <- getitem landmarks 13 ;; ring_pip <- getitem landmarks 14 ;;
  ring_dip <- getitem landmarks 15 ;; ring_tip <- getitem landmarks 16 ;;
  pinky_mcp <- getitem landmarks 17 ;; pinky_pip <- getitem landmarks 18 ;;
  pinky_dip <- getitem landmarks 19 ;; pinky_tip <- getitem landmarks 20 ;;
  let palm_width := distance index_mcp pinky_mcp in
  let contact_threshold := Rmax (palm_width * 0.4) 0.03 in
  index_angle_pip <- angle_deg index_mcp index_pip index_tip ;;
  index_angle_dip <- angle_deg index_mcp index_dip index_tip ;;
  let index_points_up := index_tip.(y) <? index_mcp.(y) - 0.03 in
  let index_extended :=
    (index_angle_pip >? 150) && (index_angle_dip >? 140) && index_points_up in
  middle_curled <- is_curled middle_mcp middle_pip middle_tip ;;
  ring_curled <- is_curled ring_mcp ring_pip ring_tip ;;
  pinky_curled <- is_curled pinky_mcp pinky_pip pinky_tip ;;
  let curled_count := sum_bools [middle_curled; ring_curled; pinky_curled] in
  let thumb_to_middle := distance thumb_tip middle_tip in
  let thumb_to_ring := distance thumb_tip ring_tip in
  let thumb_to_pinky := distance thumb_tip pinky_tip in
  let thumb_to_index := distance thumb_tip index_tip in
  let thumb_contacts :=
    (thumb_to_middle <? contact_threshold) ||
    (thumb_to_ring <? contact_threshold) ||
    (thumb_to_pinky <? contact_threshold) in
  let thumb_not_touch_index :=
    thumb_to_index >? Rmax (palm_width * 0.25) 0.03 in
  let index_middle_sep := distance index_tip middle_tip in
  let sep_ok := index_middle_sep >? Rmax (palm_width * 0.3) 0.05 in
  let ok :=
    index_extended && (2 <=? curled_count)%nat && thumb_contacts &&
    thumb_not_touch_index && sep_ok in
  Ok ok.

(** On values: the guard, then the rule on the mirrored points.  The
    allocation of the mirrored [Point] objects is modelled in
    [Objects] below. *)
Definition detect_left_hand (landmarks : option (list Point)) : result bool :=
  if invalid_input landmarks then Ok false
  else
    match landmarks with
    | None => Raise TypeError
    | Some lms =>
        let mirrored := mirror lms in
        _detect_d_internal (Some mirrored)
    end.

End D_left.

(* ------------------------------------------------------------------ *)
(** ** Hands/F/right.py and Hands/F/left.py                            *)
(* ------------------------------------------------------------------ *)

Module F_right.

(** the nested [is_finger_straight_and_extended]; it closes over
    [palm_width] and [palm_length]. *)
Definition is_finger_straight_and_extended (palm_width palm_length : R)
    (tip dip pip mcp : Point) : bool :=
  let points_up := tip.(y) <? mcp.(y) - palm_width * 0.2 in
  let finger_length := distance tip mcp in
  let expected_length := palm_length * 0.7 in
  let is_long_enough := finger_length >? expected_length in
  let tip_to_pip := distance tip pip in
  let pip_to_mcp := distance pip mcp in
  let joints_extended := tip_to_pip >? pip_to_mcp * 0.6 in
  let finger_good := points_up && is_long_enough && joints_extended in
  finger_good.

Definition detect_right_hand (landmarks : option (list Point)) : result bool :=
  if invalid_input landmarks then Ok false
  else
    wrist <- getitem landmarks 0 ;;
    thumb_tip <- getitem landmarks 4 ;; thumb_ip <- getitem landmarks 3 ;;
    thumb_mcp <- getitem landmarks 2 ;;
    index_tip <- getitem landmarks 8 ;; index_dip <- getitem landmarks 7 ;;
    index_pip <- getitem landmarks 6 ;; index_mcp <- getitem landmarks 5 ;;
    middle_tip <- getitem landmarks 12 ;; middle_dip <- getitem landmarks 11 ;;
    middle_pip <- getitem landmarks 10 ;; middle_mcp <- getitem landmarks 9 ;;
    ring_tip <- getitem landmarks 16 ;; ring_dip <- getitem landmarks 15 ;;
    ring_pip <- getitem landmarks 14 ;; ring_mcp <- getitem landmarks 13 ;;
    pinky_tip <- getitem landmarks 20 ;; pinky_dip <- getitem landmarks 19 ;;
    pinky_pip <- getitem landmarks 18 ;; pinky_mcp <- getitem landmarks 17 ;;
    (* hand dimensions *)
    let palm_width := distance index_mcp pinky_mcp in
    let palm_length := distance wrist middle_mcp in
    (* 1. thumb-index tip contact *)
    let thumb_index_distance := distance thumb_tip index_tip in
    let tips_touching := thumb_index_distance <? palm_width * 0.25 in
    let index_length := distance index_tip index_mcp in
    let index_expected_full_length := palm_length * 0.8 in
    let index_partially_bent :=
      index_length <? index_expected_full_length * 0.85 in
    let thumb_length := distance thumb_tip thumb_mcp in
    let thumb_natural_position :=
      thumb_length >? distance thumb_ip thumb_mcp * 0.9 in
    (* 2. three fingers straight and slightly spread *)
    let extended_fingers_data :=
      [ (middle_tip, middle_dip, middle_pip, middle_mcp);
        (ring_tip, ring_dip, ring_pip, ring_mcp);
        (pinky_tip, pinky_dip, pinky_pip, pinky_mcp) ] in
    let straight_fingers_count :=
      fold_left
        (fun count '(tip, dip, pip, mcp) =>
           let result :=
             is_finger_straight_and_extended palm_width palm_length
               tip dip pip mcp in
           if result then S count else count)
        extended_fingers_data 0%nat in
    (* 3. finger spread *)
    let middle_ring_gap := distance middle_tip ring_tip in
    let ring_pinky_gap := distance ring_tip pinky_tip in
    let min_spread := palm_width * 0.15 in
    let max_spread := palm_width * 0.5 in
    let good_spread :=
      (min_spread <? middle_ring_gap) && (middle_ring_gap <? max_spread) &&
      ((min_spread <? ring_pinky_gap) && (ring_pinky_gap <? max_spread)) in
    (* 4. index finger positioning *)
    let index_to_middle := distance index_tip middle_tip in
    let index_separated_from_group := index_to_middle >? palm_width * 0.3 in
    let index_not_pointing_up :=
      index_tip.(y) >? middle_tip.(y) - palm_width * 0.1 in
    (* 5. palm orientation *)
    let v1 := vec wrist index_mcp in
    let v2 := vec wrist pinky_mcp in
    let normal := cross v1 v2 in
    let palm_facing_forward := item2 normal >? -0.3 in
    (* final decision *)
    let contact_ok :=
      tips_touching && index_partially_bent && thumb_natural_position in
    let fingers_ok := (2 <=? straight_fingers_count)%nat in
    let spread_ok := good_spread in
    let position_ok := index_separated_from_group && index_not_pointing_up in
    let orientation_ok := palm_facing_forward in
    let final_result :=
      contact_ok && fingers_ok && spread_ok && position_ok && orientation_ok in
    Ok final_result.

End F_right.

Module F_left.

Definition is_finger_straight_and_extended (palm_width palm_length : R)
    (tip dip pip mcp : Point) : bool :=
  let points_up := tip.(y) <? mcp.(y) - palm_width * 0.2 in
  let finger_length := distance tip mcp in
  let expected_length := palm_length * 0.7 in
  let is_long_enough := finger_length >? expected_length in
  let tip_to_pip := distance tip pip in
  let pip_to_mcp := distance pip mcp in
  let joints_extended := tip_to_pip >? pip_to_mcp * 0.6 in
  let finger_good := points_up && is_long_enough && joints_extended in
  finger_good.

Definition _detect_f_real_camera_internal (landmarks : option (list Point))
    : result bool :=
  wrist <- getitem landmarks 0 ;;
  thumb_tip <- getitem landmarks 4 ;; thumb_ip <- getitem landmarks 3 ;;
  thumb_mcp <- getitem landmarks 2 ;;
  index_tip <- getitem landmarks 8 ;; index_dip <- getitem landmarks 7 ;;
  index_pip <- getitem landmarks 6 ;; index_mcp <- getitem landmarks 5 ;;
  middle_tip <- getitem landmarks 12 ;; middle_dip <- getitem landmarks 11 ;;
  middle_pip <- getitem landmarks 10 ;; middle_mcp <- getitem landmarks 9 ;;
  ring_tip <- getitem landmarks 16 ;; ring_dip <- getitem landmarks 15 ;;
  ring_pip <- getitem landmarks 14 ;; ring_mcp <- getitem landmarks 13 ;;
  pinky_tip <- getitem landmarks 20 ;; pinky_dip <- getitem landmarks 19 ;;
  pinky_pip <- getitem landmarks 18 ;; pinky_mcp <- getitem landmarks 17 ;;
  let palm_width := distance index_mcp pinky_mcp in
  let palm_length := distance wrist middle_mcp in
  let thumb_index_distance := distance thumb_tip index_tip in
  let tips_touching := thumb_index_distance <? palm_width * 0.25 in
  let index_length := distance index_tip index_mcp in
  let index_expected_full_length := palm_length * 0.8 in
  let index_partially_bent :=
    index_length <? index_expected_full_length * 0.85 in
  let thumb_length := distance thumb_tip thumb_mcp in
  let thumb_natural_position :=
    thumb_length >? distance thumb_ip thumb_mcp * 0.9 in
  let extended_fingers_data :=
    [ (middle_tip, middle_dip, middle_pip, middle_mcp);
      (ring_tip, ring_dip, ring_pip, ring_mcp);
      (pinky_tip, pinky_dip, pinky_pip, pinky_mcp) ] in
  let straight_fingers_count :=
    fold_left
      (fun count '(tip, dip, pip, mcp) =>
         let result :=
           is_finger_straight_and_extended palm_width palm_length
             tip dip pip mcp in
         if result then S count else count)
      extended_fingers_data 0%nat in
  let middle_ring_gap := distance middle_tip ring_tip in
  let ring_pinky_gap := distance ring_tip pinky_tip in
  let min_spread := palm_width * 0.15 in
  let max_spread := palm_width * 0.5 in
  let good_spread :=
    (min_spread <? middle_ring_gap) && (middle_ring_gap <? max_spread) &&
    ((min_spread <? ring_pinky_gap) && (ring_pinky_gap <? max_spread)) in
  let index_to_middle := distance index_tip middle_tip in
  let index_separated_from_group := index_to_middle >? palm_width * 0.3 in
  let index_not_pointing_up :=
    index_tip.(y) >? middle_tip.(y) - palm_width * 0.1 in
  let v1 := vec wrist index_mcp in
  let v2 := vec wrist pinky_mcp in
  let normal := cross v1 v2 in
  let palm_facing_forward := item2 normal >? -0.3 in
  let contact_ok :=
    tips_touching && index_partially_bent && thumb_natural_position in
  let fingers_ok := (2 <=? straight_fingers_count)%nat in
  let spread_ok := good_spread in
  let position_ok := index_separated_from_group && index_not_pointing_up in
  let orientation_ok := palm_facing_forward in
  let final_result :=
    contact_ok && fingers_ok && spread_ok && position_ok && orientation_ok in
  Ok final_result.

Definition detect_left_hand_f_real_camera (landmarks : option (list Point))
    : result bool :=
  if invalid_input landmarks then Ok false
  else
    match landmarks with
    | None => Raise TypeError
    | Some lms =>
        let mirrored_landmarks := mirror lms in
        _detect_f_real_camera_internal (Some mirrored_landmarks)
    end.

End F_left.

(* ------------------------------------------------------------------ *)
(** ** Hands/C/left.py                                                 *)
(* ------------------------------------------------------------------ *)

Module C_left.

(** The [for i in range(len(...) - 1)] loop with its [break]. *)
Fixpoint smooth_arc_loop (tip_distances_from_wrist : list R) : bool :=
  match tip_distances_from_wrist with
  | d0 :: ((d1 :: _) as rest) =>
      let diff := Rabs (d0 - d1) in
      if diff >? 0.08 then false else smooth_arc_loop rest
  | _ => true
  end.

Definition _detect_c_shape_internal (landmarks : option (list Point))
    : result bool :=
  wrist <- getitem landmarks 0 ;;
  thumb_tip <- getitem landmarks 4 ;; thumb_ip <- getitem landmarks 3 ;;
  thumb_mcp <- getitem landmarks 2 ;;
  index_tip <- getitem landmarks 8 ;; index_pip <- getitem landmarks 7 ;;
  index_mcp <- getitem landmarks 5 ;;
  middle_tip <- getitem landmarks 12 ;; middle_pip <- getitem landmarks 11 ;;
  middle_mcp <- getitem landmarks 9 ;;
  ring_tip <- getitem landmarks 16 ;; ring_pip <- getitem landmarks 15 ;;
  ring_mcp <- getitem landmarks 13 ;;
  pinky_tip <- getitem landmarks 20 ;; pinky_pip <- getitem landmarks 19 ;;
  pinky_mcp <- getitem landmarks 17 ;;
  (* 1. palm orientation *)
  let v1 : ndarray3 :=
    (index_mcp.(x) - wrist.(x), index_mcp.(y) - wrist.(y),
     index_mcp.(z) - wrist.(z)) in
  let v2 : ndarray3 :=
    (pinky_mcp.(x) - wrist.(x), pinky_mcp.(y) - wrist.(y),
     pinky_mcp.(z) - wrist.(z)) in
  let normal := cross v1 v2 in
  if item2 normal <? 0 then Ok false
  else
    (* 2. finger curvature *)
    let fingers :=
      [ (index_tip, index_mcp); (middle_tip, middle_mcp);
        (ring_tip, ring_mcp); (pinky_tip, pinky_mcp) ] in
    let curved_count :=
      fold_left
        (fun count '(tip, mcp) =>
           let tip_to_wrist := distance tip wrist in
           let mcp_to_wrist := distance mcp wrist in
           if (tip_to_wrist >? mcp_to_wrist * 0.9) &&
              (tip.(z) >? mcp.(z) - 0.05)
           then S count else count)
        fingers 0%nat in
    if (curved_count <? 3)%nat then Ok false
    else
      (* 3. thumb positioning *)
      let thumb_extended :=
        distance thumb_tip thumb_mcp >? distance thumb_ip thumb_mcp in
      let thumb_to_index_dist := distance thumb_tip index_tip in
      let thumb_to_pinky_dist := distance thumb_tip pinky_tip in
      let palm_width := distance index_mcp pinky_mcp in
      let thumb_separation_ok :=
        (0.6 * palm_width <? thumb_to_index_dist) &&
        (thumb_to_index_dist <? 1.8 * palm_width) &&
        ((0.8 * palm_width <? thumb_to_pinky_dist) &&
         (thumb_to_pinky_dist <? 2.0 * palm_width)) in
      if negb (thumb_extended && thumb_separation_ok) then Ok false
      else
        (* 4. arc validation *)
        let fingertips := [index_tip; middle_tip; ring_tip; pinky_tip] in
        let tip_distances_from_wrist :=
          map (fun tip => distance tip wrist) fingertips in
        let smooth_arc := smooth_arc_loop tip_distances_from_wrist in
        (* 5. overall shape *)
        let fingers_not_extended :=
          all (map (fun '(tip, mcp) =>
                      distance tip mcp <? distance mcp wrist * 1.2) fingers) in
        let fingers_not_closed :=
          all (map (fun '(tip, mcp) =>
                      distance tip wrist >? distance mcp wrist * 0.8) fingers) in
        Ok (smooth_arc && fingers_not_extended && fingers_not_closed).

Definition detect_left_hand (landmarks : option (list Point)) : result bool :=
  if invalid_input landmarks then Ok false
  else
    match landmarks with
    | None => Raise TypeError
    | Some lms =>
        let mirrored_landmarks := mirror lms in
        _detect_c_shape_internal (Some mirrored_landmarks)
    end.

End C_left.

(* ------------------------------------------------------------------ *)
(** ** Hands/E/left.py                                                 *)
(* ------------------------------------------------------------------ *)

Module E_left.

(** [sum(...)] over floats starts from [0]; [max(...)] of an empty
    sequence raises [ValueError]. *)
Definition sum_floats (l : list R) : R := fold_left Rplus l 0.

Definition max_seq (l : list R) : result R :=
  match l with
  | [] => Raise ValueError
  | v :: rest => Ok (fold_left Rmax rest v)
  end.

(** the nested [is_finger_curled]; it closes over [wrist] and
    [palm_width]. *)
Definition is_finger_curled (wrist : Point) (palm_width : R)
    (tip pip mcp : Point) : bool :=
  let tip_to_wrist := distance tip wrist in
  let pip_to_wrist := distance pip wrist in
  let mcp_to_wrist := distance mcp wrist in
  let curled_inward := tip_to_wrist <? pip_to_wrist + palm_width * 0.1 in
  let tip_to_mcp := distance tip mcp in
  let not_extended := tip_to_mcp <? mcp_to_wrist * 0.8 in
  let y_curled := tip.(y) >=? pip.(y) - palm_width * 0.1 in
  curled_inward && not_extended && y_curled.

Definition detect_left_hand (landmarks : option (list Point)) : result bool :=
  if invalid_input landmarks then Ok false
  else
    wrist <- getitem landmarks 0 ;;
    thumb_tip <- getitem landmarks 4 ;; thumb_ip <- getitem landmarks 3 ;;
    thumb_mcp <- getitem landmarks 2 ;;
    index_tip <- getitem landmarks 8 ;; index_pip <- getitem landmarks 6 ;;
    index_mcp <- getitem landmarks 5 ;;
    middle_tip <- getitem landmarks 12 ;; middle_pip <- getitem landmarks 10 ;;
    middle_mcp <- getitem landmarks 9 ;;
    ring_tip <- getitem landmarks 16 ;; ring_pip <- getitem landmarks 14 ;;
    ring_mcp <- getitem landmarks 13 ;;
    pinky_tip <- getitem landmarks 20 ;; pinky_pip <- getitem landmarks 18 ;;
    pinky_mcp <- getitem landmarks 17 ;;
    let palm_width := distance index_mcp pinky_mcp in
    let fingers_curled_count :=
      sum_bools
        [ is_finger_curled wrist palm_width index_tip index_pip index_mcp;
          is_finger_curled wrist palm_width middle_tip middle_pip middle_mcp;
          is_finger_curled wrist palm_width ring_tip ring_pip ring_mcp;
          is_finger_curled wrist palm_width pinky_tip pinky_pip pinky_mcp ] in
    (* thumb check *)
    let finger_tips := Some [index_tip; middle_tip; ring_tip; pinky_tip] in
    let avg_finger_x :=
      sum_floats (map (fun tip => tip.(x))
                    [index_tip; middle_tip; ring_tip; pinky_tip]) / 4 in
    let avg_finger_y :=
      sum_floats (map (fun tip => tip.(y))
                    [index_tip; middle_tip; ring_tip; pinky_tip]) / 4 in
    let thumb_to_finger_area :=
      distance thumb_tip (mkPoint avg_finger_x avg_finger_y 0) in
    let thumb_near_fingers := thumb_to_finger_area <? palm_width * 0.6 in
    let thumb_visible := thumb_tip.(x) <? avg_finger_x in
    let thumb_to_wrist := distance thumb_tip wrist in
    let thumb_mcp_to_wrist := distance thumb_mcp wrist in
    let thumb_not_extended := thumb_to_wrist <? thumb_mcp_to_wrist * 1.3 in
    (* fist compactness: max over i in range(4), j in range(i+1, 4) *)
    spreads <-
      fold_right
        (fun '(i, j) acc =>
           a <- getitem finger_tips i ;;
           b <- getitem finger_tips j ;;
           rest <- acc ;;
           Ok (distance a b :: rest))
        (Ok [])
        (flat_map (fun i => map (fun j => (i, j)) (seq (i + 1) (4 - (i + 1))))
                  (seq 0 4)) ;;
    max_spread <- max_seq spreads ;;
    let compact_fist := max_spread <? palm_width * 0.8 in
    (* fist position *)
    let avg_tip_to_wrist :=
      sum_floats (map (fun t => distance t wrist)
                    [index_tip; middle_tip; ring_tip; pinky_tip]) / 4 in
    let avg_mcp_to_wrist :=
      sum_floats (map (fun mcp => distance mcp wrist)
                    [index_mcp; middle_mcp; ring_mcp; pinky_mcp]) / 4 in
    let fist_position :=
      avg_tip_to_wrist <? avg_mcp_to_wrist + palm_width * 0.2 in
    (* final decision *)
    let fingers_ok := (3 <=? fingers_curled_count)%nat in
    let thumb_ok := thumb_near_fingers && thumb_visible && thumb_not_extended in
    let shape_ok := compact_fist && fist_position in
    let final_result := fingers_ok && thumb_ok && shape_ok in
    Ok final_result.

End E_left.

(* ------------------------------------------------------------------ *)
(** ** Point objects: the store                                        *)
(* ------------------------------------------------------------------ *)

(** A landmark list holds references to [Point] objects.  To speak about
    what a call leaves behind, the detectors are also given on a store of
    objects: a reference is an address, [Point(...)] allocates a fresh
    object at the end of the store, attribute reads go through the store.
    No detector contains an attribute assignment, so no store primitive
    for it is needed; rule bodies, which only read, are run on the points
    loaded from the store.  (The one [Point] the E rule builds, to take a
    distance to it, is never stored in a list nor returned; it stays a
    value.) *)

Module Objects.

Definition ref : Type := nat.
Definition Store : Type := list Point.

(** Computations on the store that may raise. *)
Definition St (A : Type) : Type := Store -> result A * Store.

Definition ret {A} (a : A) : St A := fun s => (Ok a, s).
Definition raise {A} (e : exn) : St A := fun s => (Raise e, s).

Definition bindS {A B} (m : St A) (k : A -> St B) : St B :=
  fun s =>
    match m s with
    | (Ok a, s') => k a s'
    | (Raise e, s') => (Raise e, s')
    end.

Notation "v <~ m ;; k" := (bindS m (fun v => k))
  (at level 61, m at next level, right associativity).

(** reading the object behind a reference (its [x], [y], [z]) *)
Definition deref (r : ref) : St Point :=
  fun s =>
    match nth_error s r with
    | Some p => (Ok p, s)
    | None => (Raise LookupError, s)
    end.

(** [Point(a, b, c)] *)
Definition new_Point (a b c : R) : St ref :=
  fun s => (Ok (List.length s), s ++ [mkPoint a b c]).

Fixpoint load (landmarks : list ref) : St (list Point) :=
  match landmarks with
  | [] => ret []
  | r :: rest => p <~ deref r ;; ps <~ load rest ;; ret (p :: ps)
  end.

(** A rule body that only reads: evaluated on the loaded points. *)
Definition read_only {A} (rule : option (list Point) -> result A)
    (landmarks : option (list ref)) : St A :=
  match landmarks with
  | None => fun s => (rule None, s)
  | Some refs => pts <~ load refs ;; fun s => (rule (Some pts), s)
  end.

(** [mirrored = [Point(1 - lm.x, lm.y, lm.z) for lm in landmarks]]: one
    new object per input object, collected in a new list. *)
Fixpoint mirror_objects (landmarks : list ref) : St (list ref) :=
  match landmarks with
  | [] => ret []
  | lm :: rest =>
      p <~ deref lm ;;
      m <~ new_Point (1 - p.(x)) p.(y) p.(z) ;;
      ms <~ mirror_objects rest ;;
      ret (m :: ms)
  end.

(** The shape shared by the C, D and F left-hand detectors. *)
Definition mirrored_detector (internal : option (list Point) -> result bool)
    (landmarks : option (list ref)) : St bool :=
  if invalid_input landmarks then ret false
  else
    match landmarks with
    | None => raise TypeError
    | Some lms =>
        mirrored <~ mirror_objects lms ;;
        read_only internal (Some mirrored)
    end.

Definition lift_pyval {A} (f : A -> pyval) (m : St A) : St pyval :=
  v <~ m ;; ret (f v).

(** The detection functions of the source tree. *)
Inductive detector : Type :=
| A_right_detect_right_hand
| A_left_detect_left_hand
| B_right_detect_right_hand
| C_left_detect_left_hand
| D_right_detect_right_hand
| D_left_detect_left_hand
| E_left_detect_left_hand
| F_right_detect_right_hand
| F_left_detect_left_hand_f_real_camera.

Definition all_detectors : list detector :=
  [ A_right_detect_right_hand; A_left_detect_left_hand;
    B_right_detect_right_hand; C_left_detect_left_hand;
    D_right_detect_right_hand; D_left_detect_left_hand;
    E_left_detect_left_hand; F_right_detect_right_hand;
    F_left_detect_left_hand_f_real_camera ].

Definition call (d : detector) (landmarks : option (list ref)) : St pyval :=
  match d with
  | A_right_detect_right_hand =>
      lift_pyval PStr (read_only A_right.detect_right_hand landmarks)
  | A_left_detect_left_hand =>
      lift_pyval PStr (read_only A_left.detect_left_hand landmarks)
  | B_right_detect_right_hand =>
      lift_pyval PStr (read_only B_right.detect_right_hand landmarks)
  | C_left_detect_left_hand =>
      lift_pyval PBool
        (mirrored_detector C_left._detect_c_shape_internal landmarks)
  | D_right_detect_right_hand =>
      lift_pyval PBool (read_only D_right.detect_right_hand landmarks)
  | D_left_detect_left_hand =>
      lift_pyval PBool (mirrored_detector D_left._detect_d_internal landmarks)
  | E_left_detect_left_hand =>
      lift_pyval PBool (read_only E_left.detect_left_hand landmarks)
  | F_right_detect_right_hand =>
      lift_pyval PBool (read_only F_right.detect_right_hand landmarks)
  | F_left_detect_left_hand_f_real_camera =>
      lift_pyval PBool
        (mirrored_detector F_left._detect_f_real_camera_internal landmarks)
  end.


End Objects.

(* ------------------------------------------------------------------ *)
(** ** ws_server.py: the per-frame classification                       *)
(* ------------------------------------------------------------------ *)

Module ws_server.

Definition LETTERS : list string := ["A"; "B"; "C"].

(** One entry of [letter_modules]: [{"left": ..., "right": ...}], reduced
    to the one function the handler calls in each module. *)
Record letter_module : Type :=
  { left_detect_left_hand : option (list Point) -> result pyval;
    right_detect_right_hand : option (list Point) -> result pyval }.

Section Registry.

(** [Hands.B.left] and [Hands.C.right] are imported by name at start-up;
    their files are not part of the tree at hand, so their detection
    functions are parameters. *)
Variable B_left_detect_left_hand : option (list Point) -> result pyval.
Variable C_right_detect_right_hand : option (list Point) -> result pyval.

(** [importlib.import_module(f"Hands.{letter}.left")] and [...right]. *)
Definition import_module (letter : string) : option letter_module :=
  if (letter =? "A")%string then
    Some {| left_detect_left_hand :=
              fun pts => as_str (A_left.detect_left_hand pts);
            right_detect_right_hand :=
              fun pts => as_str (A_right.detect_right_hand pts) |}
  else if (letter =? "B")%string then
    Some {| left_detect_left_hand := B_left_detect_left_hand;
            right_detect_right_hand :=
              fun pts => as_str (B_right.detect_right_hand pts) |}
  else if (letter =? "C")%string then
    Some {| left_detect_left_hand :=
              fun pts => as_bool (C_left.detect_left_hand pts);
            right_detect_right_hand := C_right_detect_right_hand |}
  else None.

(** The dictionary built by the start-up loop over [LETTERS]. *)
Definition letter_modules : list (string * letter_module) :=
  flat_map
    (fun letter =>
       match import_module letter with
       | Some m => [(letter, m)]
       | None => []
       end)
    LETTERS.

(** [letter_modules[letter]] *)
Definition lookup (letter : string) : result letter_module :=
  match find (fun e => (fst e =? letter)%string) letter_modules with
  | Some e => Ok (snd e)
  | None => Raise KeyError
  end.

(** [convert_mediapipe_to_points]: whichever [Point] class is picked, the
    points are built as [PointClass(lm.x, lm.y)]. *)
Definition convert_mediapipe_to_points (mediapipe_landmarks : list Point)
    (label : option string) (letter : string) : result (list Point) :=
  _m <- lookup letter ;;
  Ok (map (fun lm => Point_xy lm.(x) lm.(y)) mediapipe_landmarks).

(** [label == "Left"] *)
Definition is_Left (label : option string) : bool :=
  match label with
  | Some s => (s =? "Left")%string
  | None => false
  end.

(** The [for letter in LETTERS] loop, with its [break]; [translation] is
    the variable it assigns. *)
Fixpoint check_letters (letters : list string) (translation : string)
    (hand_landmarks : list Point) (label : option string) : result string :=
  match letters with
  | [] => Ok translation
  | letter :: rest =>
      points <- convert_mediapipe_to_points hand_landmarks label letter ;;
      m <- lookup letter ;;
      detected <-
        (if is_Left label
         then m.(left_detect_left_hand) (Some points)
         else m.(right_detect_right_hand) (Some points)) ;;
      if truthy detected then Ok letter
      else check_letters rest translation hand_landmarks label
  end.

(** The loop over the detected hands, left [if translation: break]. *)
Fixpoint check_hands (hands : list (list Point * option string))
    (translation : string) : result string :=
  match hands with
  | [] => Ok translation
  | (hand_landmarks, label) :: rest =>
      translation' <- check_letters LETTERS translation hand_landmarks label ;;
      if negb (translation' =? "")%string then Ok translation'
      else check_hands rest translation'
  end.

(** The classification of one hand, as one frame with one detected hand
    runs it ([max_num_hands=1]). *)
Definition classify (hand_landmarks : list Point) (label : option string)
    : result string :=
  check_hands [(hand_landmarks, label)] "".

(** The JSON response of one frame: the [except Exception] branch answers
    with an empty translation and status ["error"]. *)
Record response : Type := { translation : string; status : string }.

Definition respond (hands : list (list Point * option string)) : response :=
  match check_hands hands "" with
  | Ok t => {| translation := t; status := "success" |}
  | Raise _ => {| translation := ""; status := "error" |}
  end.

End Registry.

End ws_server.

(* ================================================================== *)
(** * Reference notions used by the statements                         *)
(* ================================================================== *)

(** The detection function the handler calls for [letter] under
    [label]: the [if label == "Left"] of [handle_client]. *)
Definition called_rule
    (B_left C_right : option (list Point) -> result pyval)
    (label : option string) (letter : string)
    : option (list Point) -> result pyval :=
  match ws_server.lookup B_left C_right letter with
  | Ok m =>
      if ws_server.is_Left label
      then m.(ws_server.left_detect_left_hand)
      else m.(ws_server.right_detect_right_hand)
  | Raise e => fun _ => Raise e
  end.

(** The points the handler builds from the tracker's landmarks. *)
Definition handler_points (L : list Point) : list Point :=
  map (fun lm => Point_xy lm.(x) lm.(y)) L.

(** The design's side of "first match in priority order", written without
    the handler's registry, loop or truth test.

    Handedness is one of two values; the tracker reports it as a string. *)
Inductive Handedness : Type := Left | Right.

Definition handedness_label (h : Handedness) : option string :=
  match h with
  | Left => Some "Left"
  | Right => Some "Right"
  end.

(** The rule of each symbol, per hand: the detection function of
    [Hands/<symbol>/<hand>.py]. *)
Definition rule_A (h : Handedness) (pts : option (list Point))
    : result pyval :=
  match h with
  | Left => as_str (A_left.detect_left_hand pts)
  | Right => as_str (A_right.detect_right_hand pts)
  end.

Definition rule_B (B_left : option (list Point) -> result pyval)
    (h : Handedness) (pts : option (list Point)) : result pyval :=
  match h with
  | Left => B_left pts
  | Right => as_str (B_right.detect_right_hand pts)
  end.

Definition rule_C (C_right : option (list Point) -> result pyval)
    (h : Handedness) (pts : option (list Point)) : result pyval :=
  match h with
  | Left => as_bool (C_left.detect_left_hand pts)
  | Right => C_right pts
  end.

(** "The rule returns true": it returns, and what it returns is [True] or
    a symbol, that is a string of at least one character. *)
Definition returns_true (r : result pyval) : bool :=
  match r with
  | Ok (PBool true) => true
  | Ok (PStr (String _ _)) => true
  | Ok (PBool false) | Ok (PStr EmptyString) | Raise _ => false
  end.

(** First match in priority order: the first symbol of the list whose
    rule is true, or "no match" (the empty string). *)
Definition first_match (rules : list (string * bool)) : string :=
  match find (fun r => snd r) rules with
  | Some (symbol, _) => symbol
  | None => ""
  end.

(** Landmark [i] of [L]; the default is never reached on 21 points. *)
Definition lm (L : list Point) (i : nat) : Point := nth i L (mkPoint 0 0 0).




(** Stand-ins for the two modules taken as parameters, for running the
    handler on a concrete input: rules that never match. *)
Definition never_B_left (_ : option (list Point)) : result pyval :=
  Ok (PStr "").
Definition never_C_right (_ : option (list Point)) : result pyval :=
  Ok (PBool false).

(** Moving every landmark by the same displacement. *)
Definition translate_point (dx dy dz : R) (p : Point) : Point :=
  mkPoint (p.(x) + dx) (p.(y) + dy) (p.(z) + dz).

Definition translate (dx dy dz : R) (L : list Point) : list Point :=
  map (translate_point dx dy dz) L.

(** The image-plane part of a landmark list: what is left of it when
    depth is ignored. *)
Definition xy_of (L : list Point) : list (R * R) :=
  map (fun p => (p.(x), p.(y))) L.

(** Scaling the x and y coordinates about the wrist (landmark 0) by [k];
    z is left alone. *)
Definition scale_point (k : R) (wrist p : Point) : Point :=
  mkPoint (wrist.(x) + k * (p.(x) - wrist.(x)))
          (wrist.(y) + k * (p.(y) - wrist.(y)))
          p.(z).

Definition scale_about_wrist (k : R) (L : list Point) : list Point :=
  match L with
  | [] => []
  | wrist :: _ => map (scale_point k wrist) L
  end.

(** A closed right fist with the thumb out, palm up in the image: the
    fingertips (8, 12, 16, 20) are curled back below the PIP joints
    (6, 10, 14, 18) but stay above the MCP joints (5, 9, 13, 17). *)
Definition fist_pose : list Point :=
  [ Point_xy 0.50 0.90;                       (* wrist *)
    Point_xy 0.56 0.85; Point_xy 0.60 0.78;   (* thumb cmc, mcp *)
    Point_xy 0.62 0.72; Point_xy 0.64 0.66;   (* thumb ip, tip *)
    Point_xy 0.56 0.60; Point_xy 0.56 0.45;   (* index mcp, pip *)
    Point_xy 0.56 0.50; Point_xy 0.56 0.55;   (* index dip, tip *)
    Point_xy 0.52 0.60; Point_xy 0.52 0.45;   (* middle *)
    Point_xy 0.52 0.50; Point_xy 0.52 0.55;
    Point_xy 0.48 0.60; Point_xy 0.48 0.45;   (* ring *)
    Point_xy 0.48 0.50; Point_xy 0.48 0.55;
    Point_xy 0.44 0.62; Point_xy 0.44 0.48;   (* pinky *)
    Point_xy 0.44 0.52; Point_xy 0.44 0.57 ].

(** An open right hand, palm to the camera, four fingers up, the thumb
    folded across the palm 0.04 below the index base. *)
Definition flat_hand_pose : list Point :=
  [ Point_xy 0.50 0.90;                       (* wrist *)
    Point_xy 0.53 0.88; Point_xy 0.55 0.85;   (* thumb cmc, mcp *)
    Point_xy 0.51 0.85; Point_xy 0.47 0.84;   (* thumb ip, tip *)
    Point_xy 0.45 0.80; Point_xy 0.45 0.75;   (* index mcp, pip *)
    Point_xy 0.45 0.72; Point_xy 0.45 0.70;   (* index dip, tip *)
    Point_xy 0.48 0.80; Point_xy 0.48 0.75;   (* middle *)
    Point_xy 0.48 0.72; Point_xy 0.48 0.70;
    Point_xy 0.52 0.80; Point_xy 0.52 0.75;   (* ring *)
    Point_xy 0.52 0.72; Point_xy 0.52 0.70;
    Point_xy 0.55 0.82; Point_xy 0.55 0.77;   (* pinky *)
    Point_xy 0.55 0.74; Point_xy 0.55 0.72 ].

(** The open hand again, with the four fingers bent forward, so that each
    fingertip lies below its PIP joint while staying above its MCP joint,
    and with the thumb tip right of the thumb IP joint (landmark 3): the A
    rule and the B rule of the right hand are both true of it. *)
Definition bent_hand_pose : list Point :=
  [ Point_xy 0.50 0.90;                       (* wrist *)
    Point_xy 0.53 0.88; Point_xy 0.55 0.85;   (* thumb cmc, mcp *)
    Point_xy 0.46 0.85; Point_xy 0.47 0.84;   (* thumb ip, tip *)
    Point_xy 0.45 0.80; Point_xy 0.45 0.65;   (* index mcp, pip *)
    Point_xy 0.45 0.68; Point_xy 0.45 0.70;   (* index dip, tip *)
    Point_xy 0.48 0.80; Point_xy 0.48 0.65;   (* middle *)
    Point_xy 0.48 0.68; Point_xy 0.48 0.70;
    Point_xy 0.52 0.80; Point_xy 0.52 0.65;   (* ring *)
    Point_xy 0.52 0.68; Point_xy 0.52 0.70;
    Point_xy 0.55 0.82; Point_xy 0.55 0.67;   (* pinky *)
    Point_xy 0.55 0.70; Point_xy 0.55 0.72 ].

(* ================================================================== *)
(** * Properties                                                        *)
(* ================================================================== *)

(* ------------------------------------------------------------------ *)
(** ** Comparisons and lists                                           *)
(* ------------------------------------------------------------------ *)

Lemma Rltb_true (a b : R) : (a <? b) = true <-> a < b.
Proof. unfold Rltb; destruct (Rlt_dec a b); split; intros; try easy. Qed.

Lemma Rltb_false (a b : R) : (a <? b) = false <-> b <= a.
Proof.
  unfold Rltb; destruct (Rlt_dec a b); split; intros; try easy; lra.
Qed.

Lemma Rleb_true (a b : R) : (a <=? b) = true <-> a <= b.
Proof. unfold Rleb; destruct (Rle_dec a b); split; intros; try easy. Qed.

Lemma Rleb_false (a b : R) : (a <=? b) = false <-> b < a.
Proof.
  unfold Rleb; destruct (Rle_dec a b); split; intros; try easy; lra.
Qed.

(** Two comparisons agree as soon as the compared facts are equivalent. *)
Lemma Rltb_ext (a b c d : R) : (a < b <-> c < d) -> (a <? b) = (c <? d).
Proof.
  intros H; unfold Rltb.
  destruct (Rlt_dec a b), (Rlt_dec c d); tauto.
Qed.

(** Deciding comparisons between closed terms. *)
Ltac decide_cmp :=
  repeat match goal with
    | |- context [Rltb ?a ?b] =>
        first [ replace (Rltb a b) with true
                  by (symmetry; apply Rltb_true; lra)
              | replace (Rltb a b) with false
                  by (symmetry; apply Rltb_false; lra) ]
    | |- context [Rleb ?a ?b] =>
        first [ replace (Rleb a b) with true
                  by (symmetry; apply Rleb_true; lra)
              | replace (Rleb a b) with false
                  by (symmetry; apply Rleb_false; lra) ]
    end.

(** A list of exactly 21 / at least 21 elements, spelled out. *)
Ltac explode21 L H :=
  do 21 (destruct L as [| ? L]; [simpl in H; lia |]).

Ltac explode_exact21 L H :=
  explode21 L H; destruct L; [| simpl in H; lia].

Lemma invalid_input_true {A} (landmarks : option (list A)) :
  invalid_input landmarks = true <->
  landmarks = None \/
  exists l, landmarks = Some l /\ (List.length l < 21)%nat.
Proof.
  unfold invalid_input, not_; split.
  - destruct landmarks as [[| a l] |]; intros H.
    + right; exists []; simpl; split; [reflexivity | lia].
    + right; exists (a :: l); split; [reflexivity |].
      simpl in H; apply Nat.ltb_lt in H; exact H.
    + now left.
  - intros [-> | [l [-> H]]]; [reflexivity |].
    destruct l; [reflexivity |].
    simpl orb. apply Nat.ltb_lt. exact H.
Qed.

Lemma invalid_input_false {A} (l : list A) :
  (21 <= List.length l)%nat -> invalid_input (Some l) = false.
Proof.
  intros H; unfold invalid_input, not_.
  destruct l; [simpl in H; lia |].
  simpl orb. apply Nat.ltb_ge. exact H.
Qed.

(* ------------------------------------------------------------------ *)
(** ** Degraded input                                                  *)
(* ------------------------------------------------------------------ *)

(** The guarded detectors answer [False] on [None], on the empty list and
    on every list shorter than 21. *)
Lemma guarded_detectors_no_match (landmarks : option (list Point)) :
  invalid_input landmarks = true ->
  C_left.detect_left_hand landmarks = Ok false /\
  D_right.detect_right_hand landmarks = Ok false /\
  D_left.detect_left_hand landmarks = Ok false /\
  E_left.detect_left_hand landmarks = Ok false /\
  F_right.detect_right_hand landmarks = Ok false /\
  F_left.detect_left_hand_f_real_camera landmarks = Ok false.
Proof.
  intros H.
  unfold C_left.detect_left_hand, D_right.detect_right_hand,
    D_left.detect_left_hand, E_left.detect_left_hand,
    F_right.detect_right_hand, F_left.detect_left_hand_f_real_camera.
  rewrite H. repeat split.
Qed.

(** The B detector answers [""] on every list whose length is not 21. *)
Lemma B_right_wrong_length (l : list Point) :
  List.length l <> 21%nat -> B_right.detect_right_hand (Some l) = Ok "".
Proof.
  intros H.
  unfold B_right.detect_right_hand, B_right.detect_right_hand_b_gesture.
  simpl len. cbn [bind].
  destruct (Nat.eqb_spec (List.length l) 21) as [E | E]; [contradiction |].
  reflexivity.
Qed.

(** The A detectors subscript without a guard: every list shorter than 21
    runs into an [IndexError]. *)
Lemma A_right_short_list_raises (l : list Point) :
  (List.length l < 21)%nat ->
  A_right.detect_right_hand (Some l) = Raise IndexError.
Proof.
  intros H.
  do 21 (destruct l as [| ? l]; [reflexivity |]).
  simpl in H; lia.
Qed.

Lemma A_left_short_list_raises (l : list Point) :
  (List.length l < 21)%nat ->
  A_left.detect_left_hand (Some l) = Raise IndexError.
Proof.
  intros H.
  do 21 (destruct l as [| ? l]; [reflexivity |]).
  simpl in H; lia.
Qed.

(** C1.  The claim asks every per-symbol detector, the A detectors in
    particular, to answer "no match" on an absent, empty or too-short
    landmark list and never to raise.  Evaluated on the code: on the
    empty list both A detectors raise [IndexError], on [None] they raise
    [TypeError], and so does the B detector on [None] (it calls [len]
    first). *)
Theorem C1_A_detectors_raise_on_degraded_input :
  A_right.detect_right_hand (Some []) = Raise IndexError /\
  A_right.detect_right_hand None = Raise TypeError /\
  A_left.detect_left_hand (Some []) = Raise IndexError /\
  A_left.detect_left_hand None = Raise TypeError /\
  B_right.detect_right_hand None = Raise TypeError.
Proof. repeat split. Qed.

(* ------------------------------------------------------------------ *)
(** ** Single rules                                                    *)
(* ------------------------------------------------------------------ *)

Lemma distance_nonneg (a b : Point) : 0 <= distance a b.
Proof. unfold distance; apply sqrt_pos. Qed.

(** C7.  On every 21-point landmark set, the B right-hand rule answers
    [""] whenever the z-component of (index_MCP - wrist) x (pinky_MCP -
    wrist) is not strictly positive, whatever the finger and thumb tests
    would say. *)
Theorem C7_B_right_requires_positive_cross
    (L : list Point) (wrist index_mcp pinky_mcp : Point) :
  List.length L = 21%nat ->
  nth_error L 0 = Some wrist ->
  nth_error L 5 = Some index_mcp ->
  nth_error L 17 = Some pinky_mcp ->
  ~ (0 < item2 (cross (vec wrist index_mcp) (vec wrist pinky_mcp))) ->
  B_right.detect_right_hand (Some L) = Ok "".
Proof.
  intros Hlen H0 H5 H17 Hcross.
  explode_exact21 L Hlen.
  simpl in H0, H5, H17.
  injection H0 as ->; injection H5 as ->; injection H17 as ->.
  unfold B_right.detect_right_hand, B_right.detect_right_hand_b_gesture,
    B_right._is_right_hand_palm_visible.
  cbn [len List.length Nat.eqb negb bind getitem nth_error
       B_right.INDEX_MCP B_right.WRIST B_right.PINKY_MCP].
  cbv zeta.
  match goal with
  | |- context [Rltb 0 ?c] => replace (Rltb 0 c) with false
  end.
  - reflexivity.
  - symmetry; apply Rltb_false.
    unfold item2, cross, vec in Hcross. lra.
Qed.

(** C8.  On every 21-point landmark set whose thumb tip and index tip are
    at least 0.3 palm widths apart, the F right-hand rule answers
    [False]. *)
Theorem C8_F_right_requires_tip_contact
    (L : list Point) (thumb_tip index_tip index_mcp pinky_mcp : Point) :
  List.length L = 21%nat ->
  nth_error L 4 = Some thumb_tip ->
  nth_error L 8 = Some index_tip ->
  nth_error L 5 = Some index_mcp ->
  nth_error L 17 = Some pinky_mcp ->
  distance thumb_tip index_tip >= 0.3 * distance index_mcp pinky_mcp ->
  F_right.detect_right_hand (Some L) = Ok false.
Proof.
  intros Hlen H4 H8 H5 H17 Hfar.
  assert (Hinv : invalid_input (Some L) = false)
    by (apply invalid_input_false; lia).
  explode_exact21 L Hlen.
  simpl in H4, H8, H5, H17.
  injection H4 as ->; injection H8 as ->;
    injection H5 as ->; injection H17 as ->.
  unfold F_right.detect_right_hand.
  rewrite Hinv.
  cbn [bind getitem nth_error]. cbv zeta.
  pose proof (distance_nonneg index_mcp pinky_mcp) as Hpw.
  replace (distance thumb_tip index_tip <? distance index_mcp pinky_mcp * 0.25)
    with false
    by (symmetry; apply Rltb_false; lra).
  reflexivity.
Qed.

(** The D right-hand detector reads indices 0 to 20 only. *)
Lemma D_right_reads_first_21 (L : list Point) :
  (21 <= List.length L)%nat ->
  D_right.detect_right_hand (Some L) =
  D_right.detect_right_hand (Some (firstn 21 L)).
Proof.
  intros Hlen.
  assert (Hinv : invalid_input (Some L) = false)
    by (apply invalid_input_false; exact Hlen).
  assert (Hinv' : invalid_input (Some (firstn 21 L)) = false).
  { apply invalid_input_false. rewrite length_firstn. lia. }
  unfold D_right.detect_right_hand.
  rewrite Hinv, Hinv'.
  explode21 L Hlen.
  reflexivity.
Qed.

(** C9.  On a list longer than 21, the B right-hand detector answers [""]
    at its length test, while the D right-hand detector answers what it
    answers on the first 21 elements. *)
Theorem C9_lists_longer_than_21 (L : list Point) :
  (21 < List.length L)%nat ->
  B_right.detect_right_hand (Some L) = Ok "" /\
  D_right.detect_right_hand (Some L) =
  D_right.detect_right_hand (Some (firstn 21 L)).
Proof.
  intros Hlen; split.
  - apply B_right_wrong_length; lia.
  - apply D_right_reads_first_21; lia.
Qed.

(* ------------------------------------------------------------------ *)
(** ** The joint angle                                                 *)
(* ------------------------------------------------------------------ *)

Lemma clamp_in_range (q : R) : -1 <= Rmax (-1.0) (Rmin 1.0 q) <= 1.
Proof.
  split.
  - pose proof (Rmax_l (-1.0) (Rmin 1.0 q)). lra.
  - apply Rmax_lub; [lra |].
    pose proof (Rmin_l 1.0 q). lra.
Qed.

Lemma math_acos_defined (v : R) :
  -1 <= v <= 1 -> math_acos v = Ok (acos v).
Proof.
  intros [Hlo Hhi]; unfold math_acos.
  apply Rleb_true in Hlo; apply Rleb_true in Hhi.
  now rewrite Hlo, Hhi.
Qed.

Lemma math_degrees_bound (t : R) :
  0 <= t <= PI -> 0 <= math_degrees t <= 180.
Proof.
  intros [Hlo Hhi]; unfold math_degrees.
  pose proof PI_RGT_0 as Hpi.
  assert (Hi : 0 < / PI) by (apply Rinv_0_lt_compat; lra).
  assert (Hone : PI * / PI = 1) by (apply Rinv_r; lra).
  unfold Rdiv. split; nra.
Qed.

(** In the branch that divides, the divisor is positive. *)
Lemma angle_deg_divisor_positive (n1 n2 : R) :
  (n1 <? 1e-8) || (n2 <? 1e-8) = false -> 0 < n1 * n2.
Proof.
  intros H; apply orb_false_elim in H as [H1 H2].
  apply Rltb_false in H1; apply Rltb_false in H2.
  apply Rmult_lt_0_compat; lra.
Qed.

(** C6.  [angle_deg] returns on every three points, with a value in
    [0, 180]: exactly 180 when one of the two rays from the vertex is
    shorter than 1e-8, and otherwise the arccosine, in degrees, of the
    normalised dot product clamped to [-1, 1]. *)
Theorem C6_angle_deg_total_bounded (a vertex b : Point) :
  let v1 := vec vertex a in
  let v2 := vec vertex b in
  exists deg : R,
    angle_deg a vertex b = Ok deg /\
    0 <= deg <= 180 /\
    deg =
      (if (norm v1 <? 1e-8) || (norm v2 <? 1e-8) then 180
       else
         math_degrees
           (acos (Rmax (-1) (Rmin 1 (dot v1 v2 / (norm v1 * norm v2)))))).
Proof.
  intros v1 v2. unfold angle_deg. fold v1 v2.
  destruct ((norm v1 <? 1e-8) || (norm v2 <? 1e-8)) eqn:Hdeg.
  - exists 180.0. repeat split; lra.
  - set (q := dot v1 v2 / (norm v1 * norm v2)).
    pose proof (clamp_in_range q) as Hc.
    rewrite (math_acos_defined _ Hc). cbn [bind].
    exists (math_degrees (acos (Rmax (-1.0) (Rmin 1.0 q)))).
    split; [reflexivity |]. split.
    + apply math_degrees_bound, acos_bound.
    + replace (-1.0) with (-1) by lra. replace 1.0 with 1 by lra.
      reflexivity.
Qed.

(** The angle at the origin between the x axis and the y axis, and the
    fallback when the vertex coincides with an end point. *)
Example angle_deg_right_angle :
  angle_deg (mkPoint 1 0 0) (mkPoint 0 0 0) (mkPoint 0 1 0) = Ok 90.
Proof.
  unfold angle_deg, vec, norm, dot. cbn [x y z].
  replace ((1 - 0) ^ 2 + (0 - 0) ^ 2 + (0 - 0) ^ 2) with 1 by lra.
  replace ((0 - 0) ^ 2 + (1 - 0) ^ 2 + (0 - 0) ^ 2) with 1 by lra.
  rewrite sqrt_1.
  replace (1 <? 1e-8) with false by (symmetry; apply Rltb_false; lra).
  cbn [orb].
  replace (((1 - 0) * (0 - 0) + (0 - 0) * (1 - 0) + (0 - 0) * (0 - 0)) / (1 * 1))
    with 0 by lra.
  replace (Rmin 1.0 0) with 0 by (rewrite Rmin_right; lra).
  replace (Rmax (-1.0) 0) with 0 by (rewrite Rmax_right; lra).
  rewrite math_acos_defined by lra. cbn [bind].
  rewrite acos_0. unfold math_degrees. f_equal.
  pose proof PI_RGT_0. field. lra.
Qed.

Example angle_deg_degenerate (p q : Point) : angle_deg p p q = Ok 180.0.
Proof.
  unfold angle_deg, vec, norm.
  replace ((x p - x p) ^ 2 + (y p - y p) ^ 2 + (z p - z p) ^ 2) with 0 by lra.
  rewrite sqrt_0.
  replace (0 <? 1e-8) with true by (symmetry; apply Rltb_true; lra).
  reflexivity.
Qed.

(* ------------------------------------------------------------------ *)
(** ** Rules never raise on 21 points                                  *)
(* ------------------------------------------------------------------ *)

Lemma A_right_returns (L : list Point) :
  (21 <= List.length L)%nat ->
  exists s, A_right.detect_right_hand (Some L) = Ok s /\ (s = "A" \/ s = "").
Proof.
  intros Hlen. explode21 L Hlen.
  unfold A_right.detect_right_hand. cbn [bind getitem nth_error]. cbv zeta.
  match goal with
  | |- context [if ?c then _ else _] => destruct c
  end; eexists; split; eauto.
Qed.

Lemma A_left_returns (L : list Point) :
  (21 <= List.length L)%nat ->
  exists s, A_left.detect_left_hand (Some L) = Ok s /\ (s = "A" \/ s = "").
Proof.
  intros Hlen. explode21 L Hlen.
  unfold A_left.detect_left_hand. cbn [bind getitem nth_error]. cbv zeta.
  match goal with
  | |- context [if ?c then _ else _] => destruct c
  end; eexists; split; eauto.
Qed.

Lemma B_right_returns (L : list Point) :
  exists s, B_right.detect_right_hand (Some L) = Ok s /\ (s = "B" \/ s = "").
Proof.
  destruct (Nat.eq_dec (List.length L) 21) as [Hlen | Hlen].
  - explode_exact21 L Hlen.
    unfold B_right.detect_right_hand, B_right.detect_right_hand_b_gesture,
      B_right._is_right_hand_palm_visible, B_right._are_four_fingers_extended,
      B_right._is_thumb_folded_against_palm,
      B_right._is_thumb_aligned_horizontally, B_right.and_then.
    cbn [len List.length Nat.eqb negb bind getitem nth_error
         B_right.INDEX_MCP B_right.WRIST B_right.PINKY_MCP
         B_right.INDEX_TIP B_right.MIDDLE_TIP B_right.MIDDLE_MCP
         B_right.RING_TIP B_right.RING_MCP B_right.PINKY_TIP
         B_right.THUMB_TIP B_right.THUMB_IP].
    cbv zeta.
    repeat match goal with
      | |- context [if ?c then _ else _] => destruct c; cbn [bind negb]
      end; eexists; split; eauto.
  - exists "". split; [apply B_right_wrong_length; exact Hlen | now right].
Qed.

Lemma C_left_internal_returns (L : list Point) :
  (21 <= List.length L)%nat ->
  exists b, C_left._detect_c_shape_internal (Some L) = Ok b.
Proof.
  intros Hlen. explode21 L Hlen.
  unfold C_left._detect_c_shape_internal.
  cbn [bind getitem nth_error]. cbv zeta.
  repeat match goal with
    | |- context [if ?c then _ else _] => destruct c
    end; eexists; reflexivity.
Qed.

Lemma mirror_length (L : list Point) :
  List.length (mirror L) = List.length L.
Proof. unfold mirror; apply length_map. Qed.

Lemma C_left_returns (L : list Point) :
  exists b, C_left.detect_left_hand (Some L) = Ok b.
Proof.
  unfold C_left.detect_left_hand.
  destruct (invalid_input (Some L)) eqn:Hinv; [eexists; reflexivity |].
  apply C_left_internal_returns. rewrite mirror_length.
  destruct (le_lt_dec 21 (List.length L)) as [H | H]; [exact H |].
  assert (invalid_input (Some L) = true)
    by (apply invalid_input_true; right; exists L; split; [reflexivity | exact H]).
  congruence.
Qed.

(* ------------------------------------------------------------------ *)
(** ** The classification loop                                         *)
(* ------------------------------------------------------------------ *)

(** One round of the [for letter in LETTERS] loop. *)
Lemma check_letters_step
    (Bl Cr : option (list Point) -> result pyval)
    (letter : string) (rest : list string) (t : string)
    (L : list Point) (label : option string) :
  ws_server.check_letters Bl Cr (letter :: rest) t L label =
  (detected <- called_rule Bl Cr label letter (Some (handler_points L)) ;;
   if truthy detected then Ok letter
   else ws_server.check_letters Bl Cr rest t L label).
Proof.
  cbn [ws_server.check_letters].
  unfold ws_server.convert_mediapipe_to_points, called_rule, handler_points.
  destruct (ws_server.lookup Bl Cr letter) as [m | e]; cbn [bind];
    [| reflexivity].
  destruct (ws_server.is_Left label); reflexivity.
Qed.

Lemma bind_same_branches {A} (m : result A) (c : A -> bool) :
  (v <- m ;; if c v then Ok v else Ok v) = m.
Proof. destruct m as [a | e]; cbn; [destruct (c a) |]; reflexivity. Qed.

(** The two loops of [handle_client], for one hand, as a cascade. *)
Lemma classify_cascade
    (Bl Cr : option (list Point) -> result pyval)
    (L : list Point) (label : option string) :
  ws_server.classify Bl Cr L label =
  (a <- called_rule Bl Cr label "A" (Some (handler_points L)) ;;
   if truthy a then Ok "A"
   else
     b <- called_rule Bl Cr label "B" (Some (handler_points L)) ;;
     if truthy b then Ok "B"
     else
       c <- called_rule Bl Cr label "C" (Some (handler_points L)) ;;
       if truthy c then Ok "C" else Ok "").
Proof.
  unfold ws_server.classify.
  cbn [ws_server.check_hands].
  rewrite (bind_same_branches _ (fun t => negb (t =? "")%string)).
  unfold ws_server.LETTERS.
  rewrite !check_letters_step.
  reflexivity.
Qed.

Lemma handler_points_length (L : list Point) :
  List.length (handler_points L) = List.length L.
Proof. unfold handler_points; apply length_map. Qed.

Lemma is_Left_false (label : option string) :
  label <> Some "Left" -> ws_server.is_Left label = false.
Proof.
  intros H; destruct label as [s |]; [| reflexivity].
  cbn. destruct (String.eqb_spec s "Left"); [subst; contradiction | reflexivity].
Qed.

(** The registered rules return on every 21-point set, as soon as the two
    detectors taken as parameters do. *)
Lemma called_rule_returns
    (Bl Cr : option (list Point) -> result pyval)
    (label : option string) (pts : list Point) (letter : string) :
  List.length pts = 21%nat ->
  (forall l, List.length l = 21%nat -> exists v, Bl (Some l) = Ok v) ->
  (forall l, List.length l = 21%nat -> exists v, Cr (Some l) = Ok v) ->
  In letter ws_server.LETTERS ->
  exists v, called_rule Bl Cr label letter (Some pts) = Ok v.
Proof.
  intros Hlen HBl HCr Hin.
  destruct Hin as [<- | [<- | [<- | []]]];
    unfold called_rule; cbn; destruct (ws_server.is_Left label).
  - destruct (A_left_returns pts) as [s [-> _]]; [lia |].
    eexists; reflexivity.
  - destruct (A_right_returns pts) as [s [-> _]]; [lia |].
    eexists; reflexivity.
  - apply HBl, Hlen.
  - destruct (B_right_returns pts) as [s [-> _]]. eexists; reflexivity.
  - destruct (C_left_returns pts) as [b ->]. eexists; reflexivity.
  - apply HCr, Hlen.
Qed.

(** The handler's truth test [if detected:] is the design's "returns
    true". *)
Lemma truthy_returns_true (v : pyval) : truthy v = returns_true (Ok v).
Proof. destruct v as [[| c s] | [|]]; reflexivity. Qed.

(** The function the handler takes from its registry for each symbol is
    the rule of that symbol for that hand. *)
Lemma called_rule_is_rule
    (Bl Cr : option (list Point) -> result pyval) (h : Handedness)
    (pts : option (list Point)) :
  called_rule Bl Cr (handedness_label h) "A" pts = rule_A h pts /\
  called_rule Bl Cr (handedness_label h) "B" pts = rule_B Bl h pts /\
  called_rule Bl Cr (handedness_label h) "C" pts = rule_C Cr h pts.
Proof. destruct h; repeat split; reflexivity. Qed.

(** C2.  On every 21-point landmark set and for either handedness, the
    handler answers the first of the symbols A, B, C, in that order,
    whose rule returns true, and the empty string when none does; when
    several rules return true the earliest one wins.  Here the rule of a
    symbol is the detection function of that symbol's module for that
    hand, applied to the points the handler builds; it returns true when
    it returns [True] or a non-empty string.  ([Hands.B.left] and
    [Hands.C.right] are parameters, assumed to return on 21 points.) *)
Theorem C2_first_match_in_registration_order
    (Bl Cr : option (list Point) -> result pyval)
    (L : list Point) (h : Handedness) :
  List.length L = 21%nat ->
  (forall l, List.length l = 21%nat -> exists v, Bl (Some l) = Ok v) ->
  (forall l, List.length l = 21%nat -> exists v, Cr (Some l) = Ok v) ->
  let pts := Some (handler_points L) in
  let a := returns_true (rule_A h pts) in
  let b := returns_true (rule_B Bl h pts) in
  let c := returns_true (rule_C Cr h pts) in
  let answer := ws_server.classify Bl Cr L (handedness_label h) in
  answer = Ok (first_match [("A", a); ("B", b); ("C", c)]) /\
  (a = true -> answer = Ok "A") /\
  (a = false -> b = true -> answer = Ok "B") /\
  (a = false -> b = false -> c = true -> answer = Ok "C") /\
  (a = false -> b = false -> c = false -> answer = Ok "").
Proof.
  intros Hlen HBl HCr pts a b c answer.
  assert (Hpts : List.length (handler_points L) = 21%nat)
    by (rewrite handler_points_length; exact Hlen).
  assert (HA : In "A" ws_server.LETTERS) by (cbn; tauto).
  assert (HB : In "B" ws_server.LETTERS) by (cbn; tauto).
  assert (HC : In "C" ws_server.LETTERS) by (cbn; tauto).
  destruct (called_rule_returns Bl Cr (handedness_label h) _ "A"
              Hpts HBl HCr HA) as [va Ea].
  destruct (called_rule_returns Bl Cr (handedness_label h) _ "B"
              Hpts HBl HCr HB) as [vb Eb].
  destruct (called_rule_returns Bl Cr (handedness_label h) _ "C"
              Hpts HBl HCr HC) as [vc Ec].
  subst a b c answer pts.
  destruct (called_rule_is_rule Bl Cr h (Some (handler_points L)))
    as (RA & RB & RC).
  rewrite classify_cascade.
  rewrite <- RA, <- RB, <- RC, Ea, Eb, Ec.
  rewrite <- !truthy_returns_true.
  cbn [bind]. unfold first_match.
  destruct (truthy va), (truthy vb), (truthy vc); cbn;
    repeat split; intros; try reflexivity; discriminate.
Qed.

(** A landmark list that is too short makes the A rule raise; the
    handler's [except] branch answers with an empty translation and the
    status ["error"]. *)
Lemma respond_short_list
    (Bl Cr : option (list Point) -> result pyval) (label : option string) :
  ws_server.respond Bl Cr [([], label)] =
  {| ws_server.translation := ""; ws_server.status := "error" |}.
Proof.
  unfold ws_server.respond. cbn [ws_server.check_hands].
  unfold ws_server.LETTERS. rewrite check_letters_step.
  unfold called_rule.
  destruct (ws_server.is_Left label); reflexivity.
Qed.

(** C4 (as amended).  The branch taken is decided by the test
    [label == "Left"] alone: every handedness string other than ["Left"]
    takes the [else] branch, and the landmark set is classified with the
    right-hand rules, exactly as under ["Right"]. *)
Theorem C4_not_Left_is_classified_as_Right
    (Bl Cr : option (list Point) -> result pyval)
    (L : list Point) (label : string) :
  label <> "Left" ->
  ws_server.classify Bl Cr L (Some label) =
  ws_server.classify Bl Cr L (Some "Right").
Proof.
  intros H.
  rewrite !classify_cascade. unfold called_rule.
  rewrite (is_Left_false (Some label)) by congruence.
  rewrite (is_Left_false (Some "Right")) by discriminate.
  reflexivity.
Qed.

(* ------------------------------------------------------------------ *)
(** ** The two sample poses                                            *)
(* ------------------------------------------------------------------ *)

Ltac run_rule :=
  cbn [bind getitem nth_error len List.length Nat.eqb negb map
       x y z Point_xy mirror mirror_point scale_about_wrist scale_point
       all forallb andb
       B_right.thumb_alignment_threshold B_right.init_default
       B_right.INDEX_MCP B_right.WRIST B_right.PINKY_MCP
       B_right.INDEX_TIP B_right.MIDDLE_TIP B_right.MIDDLE_MCP
       B_right.RING_TIP B_right.RING_MCP B_right.PINKY_TIP
       B_right.THUMB_TIP B_right.THUMB_IP];
  cbv zeta.

Lemma handler_points_fist : handler_points fist_pose = fist_pose.
Proof. reflexivity. Qed.

Lemma handler_points_mirror_fist :
  handler_points (mirror fist_pose) = mirror fist_pose.
Proof. reflexivity. Qed.

Lemma fist_A_right : A_right.detect_right_hand (Some fist_pose) = Ok "A".
Proof.
  unfold A_right.detect_right_hand, fist_pose.
  run_rule. decide_cmp. reflexivity.
Qed.

Lemma mirrored_fist_A_left :
  A_left.detect_left_hand (Some (mirror fist_pose)) = Ok "".
Proof.
  unfold A_left.detect_left_hand, fist_pose.
  run_rule. decide_cmp. reflexivity.
Qed.

Lemma fist_classified_A
    (Bl Cr : option (list Point) -> result pyval) (label : option string) :
  label <> Some "Left" ->
  ws_server.classify Bl Cr fist_pose label = Ok "A".
Proof.
  intros H. rewrite classify_cascade, handler_points_fist.
  unfold called_rule. rewrite (is_Left_false label H).
  cbn [ws_server.lookup ws_server.letter_modules ws_server.LETTERS flat_map
       ws_server.import_module String.eqb Ascii.eqb Bool.eqb app find fst snd
       ws_server.right_detect_right_hand].
  rewrite fist_A_right. reflexivity.
Qed.

Lemma handler_points_flat : handler_points flat_hand_pose = flat_hand_pose.
Proof. reflexivity. Qed.

Lemma handler_points_scaled_flat :
  handler_points (scale_about_wrist 3 flat_hand_pose) =
  scale_about_wrist 3 flat_hand_pose.
Proof. reflexivity. Qed.

Ltac unfold_B :=
  unfold B_right.detect_right_hand, B_right.detect_right_hand_b_gesture,
    B_right._is_right_hand_palm_visible, B_right._are_four_fingers_extended,
    B_right._is_thumb_folded_against_palm,
    B_right._is_thumb_aligned_horizontally, B_right.and_then.

Lemma flat_A_right : A_right.detect_right_hand (Some flat_hand_pose) = Ok "".
Proof.
  unfold A_right.detect_right_hand, flat_hand_pose.
  run_rule. decide_cmp. reflexivity.
Qed.

Lemma flat_B_right : B_right.detect_right_hand (Some flat_hand_pose) = Ok "B".
Proof.
  unfold_B. unfold flat_hand_pose. run_rule.
  replace (Rabs (0.84 - 0.80)) with 0.04
    by (rewrite Rabs_pos_eq; lra).
  decide_cmp. run_rule. decide_cmp. reflexivity.
Qed.

Lemma handler_points_bent : handler_points bent_hand_pose = bent_hand_pose.
Proof. reflexivity. Qed.

Lemma bent_A_right : A_right.detect_right_hand (Some bent_hand_pose) = Ok "A".
Proof.
  unfold A_right.detect_right_hand, bent_hand_pose.
  run_rule. decide_cmp. reflexivity.
Qed.

Lemma bent_B_right : B_right.detect_right_hand (Some bent_hand_pose) = Ok "B".
Proof.
  unfold_B. unfold bent_hand_pose. run_rule.
  replace (Rabs (0.84 - 0.80)) with 0.04
    by (rewrite Rabs_pos_eq; lra).
  decide_cmp. run_rule. decide_cmp. reflexivity.
Qed.

Lemma scaled_flat_A_right :
  A_right.detect_right_hand (Some (scale_about_wrist 3 flat_hand_pose)) = Ok "".
Proof.
  unfold A_right.detect_right_hand, flat_hand_pose.
  run_rule. decide_cmp. reflexivity.
Qed.

Lemma scaled_flat_B_right :
  B_right.detect_right_hand (Some (scale_about_wrist 3 flat_hand_pose)) = Ok "".
Proof.
  unfold_B. unfold flat_hand_pose. run_rule.
  replace (Rabs (0.90 + 3 * (0.84 - 0.90) - (0.90 + 3 * (0.80 - 0.90))))
    with 0.12
    by (rewrite Rabs_pos_eq; lra).
  decide_cmp. run_rule. decide_cmp. reflexivity.
Qed.

(** When the A rule is false the answer is not ["A"]; when the A and B
    rules are false it is not ["B"]. *)
Lemma classify_not_A
    (Bl Cr : option (list Point) -> result pyval)
    (L : list Point) (label : option string) (a : pyval) :
  called_rule Bl Cr label "A" (Some (handler_points L)) = Ok a ->
  truthy a = false ->
  ws_server.classify Bl Cr L label <> Ok "A".
Proof.
  intros Ea Ha. rewrite classify_cascade, Ea. cbn [bind]. rewrite Ha.
  destruct (called_rule Bl Cr label "B" _) as [b | e]; cbn [bind];
    [| discriminate].
  destruct (truthy b); [discriminate |].
  destruct (called_rule Bl Cr label "C" _) as [c | e]; cbn [bind];
    [| discriminate].
  destruct (truthy c); discriminate.
Qed.

Lemma classify_not_B
    (Bl Cr : option (list Point) -> result pyval)
    (L : list Point) (label : option string) (a b : pyval) :
  called_rule Bl Cr label "A" (Some (handler_points L)) = Ok a ->
  truthy a = false ->
  called_rule Bl Cr label "B" (Some (handler_points L)) = Ok b ->
  truthy b = false ->
  ws_server.classify Bl Cr L label <> Ok "B".
Proof.
  intros Ea Ha Eb Hb. rewrite classify_cascade, Ea. cbn [bind].
  rewrite Ha, Eb. cbn [bind]. rewrite Hb.
  destruct (called_rule Bl Cr label "C" _) as [c | e]; cbn [bind];
    [| discriminate].
  destruct (truthy c); discriminate.
Qed.

Ltac unfold_called_rule :=
  unfold called_rule;
  cbn [ws_server.lookup ws_server.letter_modules ws_server.LETTERS flat_map
       ws_server.import_module String.eqb Ascii.eqb Bool.eqb app find fst snd
       ws_server.is_Left
       ws_server.right_detect_right_hand ws_server.left_detect_left_hand].

(** Counterexample to C3: the fist is an "A" as a right hand, and its
    mirror image is not an "A" as a left hand. *)
Lemma C3_mirrored_fist_counterexample :
  List.length fist_pose = 21%nat /\
  A_right.detect_right_hand (Some fist_pose) = Ok "A" /\
  A_left.detect_left_hand (Some (mirror fist_pose)) = Ok "" /\
  (forall Bl Cr : option (list Point) -> result pyval,
     ws_server.classify Bl Cr fist_pose (Some "Right") = Ok "A" /\
     ws_server.classify Bl Cr (mirror fist_pose) (Some "Left") <> Ok "A").
Proof.
  split; [reflexivity |].
  split; [exact fist_A_right |].
  split; [exact mirrored_fist_A_left |].
  intros Bl Cr; split.
  - apply fist_classified_A; discriminate.
  - apply classify_not_A with (a := PStr "").
    + rewrite handler_points_mirror_fist. unfold_called_rule.
      rewrite mirrored_fist_A_left. reflexivity.
    + reflexivity.
Qed.

(** Counterexample to C4: under a handedness string that is neither
    ["Left"] nor ["Right"], the fist is still answered ["A"], by the
    right-hand rule, and not left unmatched. *)
Lemma C4_unknown_handedness_counterexample :
  "Unknown" <> "Left" /\
  "Unknown" <> "Right" /\
  A_right.detect_right_hand (Some (handler_points fist_pose)) = Ok "A" /\
  (forall Bl Cr : option (list Point) -> result pyval,
     ws_server.classify Bl Cr fist_pose (Some "Unknown") = Ok "A" /\
     ws_server.classify Bl Cr fist_pose (Some "Unknown") <> Ok "").
Proof.
  split; [discriminate |]. split; [discriminate |].
  split; [rewrite handler_points_fist; exact fist_A_right |].
  intros Bl Cr.
  assert (H : ws_server.classify Bl Cr fist_pose (Some "Unknown") = Ok "A")
    by (apply fist_classified_A; discriminate).
  split; [exact H |].
  rewrite H; discriminate.
Qed.

(** Counterexample to C5: the flat hand is a "B"; three times larger
    about the wrist, it is not. *)
Lemma C5_scaled_flat_hand_counterexample :
  List.length flat_hand_pose = 21%nat /\
  B_right.detect_right_hand (Some flat_hand_pose) = Ok "B" /\
  B_right.detect_right_hand (Some (scale_about_wrist 3 flat_hand_pose)) = Ok "" /\
  (forall Bl Cr : option (list Point) -> result pyval,
     ws_server.classify Bl Cr flat_hand_pose (Some "Right") = Ok "B" /\
     ws_server.classify Bl Cr (scale_about_wrist 3 flat_hand_pose)
       (Some "Right") <> Ok "B").
Proof.
  split; [reflexivity |].
  split; [exact flat_B_right |].
  split; [exact scaled_flat_B_right |].
  intros Bl Cr; split.
  - rewrite classify_cascade, handler_points_flat.
    unfold_called_rule. rewrite flat_A_right, flat_B_right. reflexivity.
  - apply classify_not_B with (a := PStr "") (b := PStr "").
    + rewrite handler_points_scaled_flat. unfold_called_rule.
      rewrite scaled_flat_A_right. reflexivity.
    + reflexivity.
    + rewrite handler_points_scaled_flat. unfold_called_rule.
      rewrite scaled_flat_B_right. reflexivity.
    + reflexivity.
Qed.

(* ------------------------------------------------------------------ *)
(** ** Mirroring                                                       *)
(* ------------------------------------------------------------------ *)

Lemma mirror_point_involutive (p : Point) : mirror_point (mirror_point p) = p.
Proof.
  destruct p as [px py pz]; unfold mirror_point; cbn [x y z].
  f_equal; lra.
Qed.

Lemma mirror_involutive (L : list Point) : mirror (mirror L) = L.
Proof.
  unfold mirror. rewrite map_map.
  induction L as [| p L IH]; cbn [map]; [reflexivity |].
  now rewrite mirror_point_involutive, IH.
Qed.

(** The D and F left-hand detectors are the right-hand rules behind a
    mirror. *)
Lemma D_internal_is_right_rule (L : list Point) :
  (21 <= List.length L)%nat ->
  D_left._detect_d_internal (Some L) = D_right.detect_right_hand (Some L).
Proof.
  intros Hlen. unfold D_right.detect_right_hand.
  rewrite (invalid_input_false L Hlen). reflexivity.
Qed.

Lemma F_internal_is_right_rule (L : list Point) :
  (21 <= List.length L)%nat ->
  F_left._detect_f_real_camera_internal (Some L) =
  F_right.detect_right_hand (Some L).
Proof.
  intros Hlen. unfold F_right.detect_right_hand.
  rewrite (invalid_input_false L Hlen). reflexivity.
Qed.

Lemma D_mirror_symmetry (L : list Point) :
  (21 <= List.length L)%nat ->
  D_left.detect_left_hand (Some (mirror L)) =
  D_right.detect_right_hand (Some L).
Proof.
  intros Hlen. unfold D_left.detect_left_hand.
  rewrite invalid_input_false by (rewrite mirror_length; exact Hlen).
  rewrite mirror_involutive. apply D_internal_is_right_rule, Hlen.
Qed.

Lemma F_mirror_symmetry (L : list Point) :
  (21 <= List.length L)%nat ->
  F_left.detect_left_hand_f_real_camera (Some (mirror L)) =
  F_right.detect_right_hand (Some L).
Proof.
  intros Hlen. unfold F_left.detect_left_hand_f_real_camera.
  rewrite invalid_input_false by (rewrite mirror_length; exact Hlen).
  rewrite mirror_involutive. apply F_internal_is_right_rule, Hlen.
Qed.

(** C3 (as amended).  On every 21-point landmark set [L]:
    the D and F left-hand detectors on [mirror L] agree with the D and F
    right-hand detectors on [L]; the A left-hand detector on [mirror L]
    answers "A" exactly when the fingertips are below the MCP joints
    (5, 9, 13, 17) and the thumb tip is to the right of joint 2, whereas
    the A right-hand detector on [L] compares with the PIP joints
    (6, 10, 14, 18) and joint 3; and classifying [mirror L] as a left hand
    agrees with classifying [L] as a right hand whenever each registered
    symbol's two detectors agree on them. *)
Theorem C3_mirror_symmetry_by_rule (L : list Point) :
  List.length L = 21%nat ->
  D_left.detect_left_hand (Some (mirror L)) =
    D_right.detect_right_hand (Some L) /\
  F_left.detect_left_hand_f_real_camera (Some (mirror L)) =
    F_right.detect_right_hand (Some L) /\
  A_left.detect_left_hand (Some (mirror L)) =
    Ok (if ((lm L 8).(y) >? (lm L 5).(y)) && ((lm L 12).(y) >? (lm L 9).(y)) &&
           ((lm L 16).(y) >? (lm L 13).(y)) &&
           ((lm L 20).(y) >? (lm L 17).(y)) &&
           ((lm L 4).(x) >? (lm L 2).(x))
        then "A" else "") /\
  A_right.detect_right_hand (Some L) =
    Ok (if ((lm L 8).(y) >? (lm L 6).(y)) && ((lm L 12).(y) >? (lm L 10).(y)) &&
           ((lm L 16).(y) >? (lm L 14).(y)) &&
           ((lm L 20).(y) >? (lm L 18).(y)) &&
           ((lm L 4).(x) >? (lm L 3).(x))
        then "A" else "") /\
  (forall Bl Cr : option (list Point) -> result pyval,
     (forall letter, In letter ws_server.LETTERS ->
        called_rule Bl Cr (Some "Left") letter
          (Some (handler_points (mirror L))) =
        called_rule Bl Cr (Some "Right") letter (Some (handler_points L))) ->
     ws_server.classify Bl Cr (mirror L) (Some "Left") =
     ws_server.classify Bl Cr L (Some "Right")).
Proof.
  intros Hlen.
  split; [apply D_mirror_symmetry; lia |].
  split; [apply F_mirror_symmetry; lia |].
  split; [| split].
  - explode_exact21 L Hlen.
    unfold A_left.detect_left_hand, lm.
    cbn [bind getitem nth_error nth mirror map mirror_point x y z all forallb].
    match goal with
    | |- context [Rltb (1 - x ?a) (1 - x ?b)] =>
        replace (Rltb (1 - x a) (1 - x b)) with (Rltb (x b) (x a))
          by (apply Rltb_ext; lra)
    end.
    rewrite !andb_true_r, !andb_assoc. reflexivity.
  - explode_exact21 L Hlen.
    unfold A_right.detect_right_hand, lm.
    cbn [bind getitem nth_error nth x y z all forallb].
    rewrite !andb_true_r, !andb_assoc. reflexivity.
  - intros Bl Cr Hagree. rewrite !classify_cascade.
    rewrite !Hagree by (cbn; tauto). reflexivity.
Qed.

(* ------------------------------------------------------------------ *)
(** ** Scaling about the wrist                                         *)
(* ------------------------------------------------------------------ *)

Lemma lt_scaled (k a b a' b' : R) :
  0 < k -> a' - b' = k * (a - b) -> (a' < b' <-> a < b).
Proof. intros Hk E; split; intros H; nra. Qed.

Lemma lt_scaled_sq (k a b a' b' : R) :
  0 < k -> a' - b' = k * k * (a - b) -> (a' < b' <-> a < b).
Proof.
  intros Hk E.
  assert (Hkk : 0 < k * k) by (apply Rmult_lt_0_compat; exact Hk).
  rewrite Rmult_assoc in E.
  split; intros H; nra.
Qed.

Lemma if_cong {A} (c c' : bool) (a a' b b' : A) :
  c = c' -> a = a' -> b = b' ->
  (if c then a else b) = (if c' then a' else b').
Proof. now intros -> -> ->. Qed.

(** Both sides have the same shape and differ in the compared numbers
    only: descend to the comparisons and settle each by scaling. *)
Ltac same_after_scaling k Hk :=
  repeat match goal with
    | |- Ok _ = Ok _ => apply f_equal
    | |- andb _ _ = andb _ _ => apply f_equal2
    | |- (if _ then _ else _) = (if _ then _ else _) => apply if_cong
    | |- Rltb _ _ = Rltb _ _ =>
        apply Rltb_ext;
        first [ apply (lt_scaled k); [exact Hk | ring]
              | apply (lt_scaled_sq k); [exact Hk | ring] ]
    | |- _ => reflexivity
    end.

Lemma scale_about_wrist_length (k : R) (L : list Point) :
  List.length (scale_about_wrist k L) = List.length L.
Proof. destruct L; [reflexivity |]. unfold scale_about_wrist. apply length_map. Qed.

Ltac run_scaled :=
  cbn [bind getitem nth_error map scale_about_wrist scale_point x y z
       all forallb
       B_right.INDEX_MCP B_right.WRIST B_right.PINKY_MCP
       B_right.INDEX_TIP B_right.MIDDLE_TIP B_right.MIDDLE_MCP
       B_right.RING_TIP B_right.RING_MCP B_right.PINKY_TIP
       B_right.THUMB_TIP B_right.THUMB_IP];
  cbv zeta.

Lemma A_right_scale_invariant (k : R) (L : list Point) :
  0 < k -> List.length L = 21%nat ->
  A_right.detect_right_hand (Some (scale_about_wrist k L)) =
  A_right.detect_right_hand (Some L).
Proof.
  intros Hk Hlen. explode_exact21 L Hlen.
  unfold A_right.detect_right_hand. run_scaled.
  same_after_scaling k Hk.
Qed.

Lemma A_left_scale_invariant (k : R) (L : list Point) :
  0 < k -> List.length L = 21%nat ->
  A_left.detect_left_hand (Some (scale_about_wrist k L)) =
  A_left.detect_left_hand (Some L).
Proof.
  intros Hk Hlen. explode_exact21 L Hlen.
  unfold A_left.detect_left_hand. run_scaled.
  same_after_scaling k Hk.
Qed.

Lemma B_palm_visible_scale_invariant
    (d : B_right.RightHandGestureDetector) (k : R) (L : list Point) :
  0 < k -> List.length L = 21%nat ->
  B_right._is_right_hand_palm_visible d (Some (scale_about_wrist k L)) =
  B_right._is_right_hand_palm_visible d (Some L).
Proof.
  intros Hk Hlen. explode_exact21 L Hlen.
  unfold B_right._is_right_hand_palm_visible. run_scaled.
  same_after_scaling k Hk.
Qed.

Lemma B_four_fingers_scale_invariant
    (d : B_right.RightHandGestureDetector) (k : R) (L : list Point) :
  0 < k -> List.length L = 21%nat ->
  B_right._are_four_fingers_extended d (Some (scale_about_wrist k L)) =
  B_right._are_four_fingers_extended d (Some L).
Proof.
  intros Hk Hlen. explode_exact21 L Hlen.
  unfold B_right._are_four_fingers_extended. run_scaled.
  same_after_scaling k Hk.
Qed.

Lemma B_thumb_folded_scale_invariant
    (d : B_right.RightHandGestureDetector) (k : R) (L : list Point) :
  0 < k -> List.length L = 21%nat ->
  B_right._is_thumb_folded_against_palm d (Some (scale_about_wrist k L)) =
  B_right._is_thumb_folded_against_palm d (Some L).
Proof.
  intros Hk Hlen. explode_exact21 L Hlen.
  unfold B_right._is_thumb_folded_against_palm. run_scaled.
  same_after_scaling k Hk.
Qed.

(** C5 (as amended).  For every 21-point landmark set and every k > 0,
    scaling x and y about the wrist by k leaves the answer of both A
    detectors unchanged, and leaves the palm-orientation, four-fingers and
    thumb-folded tests of the B rule unchanged; the B rule as a whole is
    unchanged whenever its thumb-alignment test, which compares a raw y
    difference with the absolute threshold, comes out the same. *)
Theorem C5_scale_invariance_by_rule (k : R) (L : list Point) :
  0 < k ->
  List.length L = 21%nat ->
  let L' := scale_about_wrist k L in
  A_right.detect_right_hand (Some L') = A_right.detect_right_hand (Some L) /\
  A_left.detect_left_hand (Some L') = A_left.detect_left_hand (Some L) /\
  (forall d,
     B_right._is_right_hand_palm_visible d (Some L') =
     B_right._is_right_hand_palm_visible d (Some L)) /\
  (forall d,
     B_right._are_four_fingers_extended d (Some L') =
     B_right._are_four_fingers_extended d (Some L)) /\
  (forall d,
     B_right._is_thumb_folded_against_palm d (Some L') =
     B_right._is_thumb_folded_against_palm d (Some L)) /\
  (forall d,
     B_right._is_thumb_aligned_horizontally d (Some L') =
     B_right._is_thumb_aligned_horizontally d (Some L) ->
     B_right.detect_right_hand_b_gesture d (Some L') =
     B_right.detect_right_hand_b_gesture d (Some L)).
Proof.
  intros Hk Hlen L'. subst L'.
  split; [apply A_right_scale_invariant; assumption |].
  split; [apply A_left_scale_invariant; assumption |].
  split; [intros d; apply B_palm_visible_scale_invariant; assumption |].
  split; [intros d; apply B_four_fingers_scale_invariant; assumption |].
  split; [intros d; apply B_thumb_folded_scale_invariant; assumption |].
  intros d Halign.
  unfold B_right.detect_right_hand_b_gesture.
  cbn [len]. rewrite scale_about_wrist_length.
  rewrite B_palm_visible_scale_invariant by assumption.
  rewrite B_four_fingers_scale_invariant by assumption.
  rewrite B_thumb_folded_scale_invariant by assumption.
  rewrite Halign. reflexivity.
Qed.

(* ------------------------------------------------------------------ *)
(** ** The store after a call                                          *)
(* ------------------------------------------------------------------ *)

Section Frame.
Import Objects.















End Frame.

Section Agreement.
Import Objects.

(** A successful [load] returns the objects behind the references and
    leaves the store alone. *)
Lemma load_ok (refs : list ref) (s s' : Store) (pts : list Point) :
  load refs s = (Ok pts, s') ->
  s' = s /\ Forall2 (fun r p => nth_error s r = Some p) refs pts.
Proof.
  revert pts s'. induction refs as [| r refs IH]; intros pts s' H.
  - cbn in H. injection H as <- <-. split; [reflexivity | constructor].
  - cbn [load] in H. unfold bindS, deref, ret in H.
    destruct (nth_error s r) as [p |] eqn:Hr; [| discriminate].
    destruct (load refs s) as [[ps | e] s1] eqn:Hl; [| discriminate].
    destruct (IH ps s1 eq_refl) as [-> HF].
    injection H as <- <-. split; [reflexivity |].
    constructor; assumption.
Qed.

Lemma load_of_valid (refs : list ref) (s : Store) (pts : list Point) :
  Forall2 (fun r p => nth_error s r = Some p) refs pts ->
  load refs s = (Ok pts, s).
Proof.
  induction 1 as [| r p refs pts Hr _ IH]; [reflexivity |].
  cbn [load]. unfold bindS, deref, ret. now rewrite Hr, IH.
Qed.

(** Loading the references [n, n+1, ...] of the objects just appended. *)
Lemma load_fresh (s0 l post : list Point) :
  load (seq (List.length s0) (List.length l)) (s0 ++ l ++ post) =
  (Ok l, s0 ++ l ++ post).
Proof.
  revert s0. induction l as [| p l IH]; intros s0; [reflexivity |].
  cbn [List.length seq load]. unfold bindS, deref, ret.
  rewrite nth_error_app2 by lia. rewrite Nat.sub_diag. cbn [nth_error app].
  specialize (IH (s0 ++ [p])).
  rewrite length_app in IH. cbn [List.length] in IH.
  rewrite Nat.add_1_r in IH. rewrite <- app_assoc in IH. cbn [app] in IH.
  now rewrite IH.
Qed.

(** Mirroring allocates one new object per landmark, after everything
    already in the store, and returns the list of the new references. *)
Lemma mirror_objects_ok (refs : list ref) (s : Store) (pts : list Point) :
  Forall2 (fun r p => nth_error s r = Some p) refs pts ->
  forall ext,
    mirror_objects refs (s ++ ext) =
    (Ok (seq (List.length (s ++ ext)) (List.length refs)),
     (s ++ ext) ++ mirror pts).
Proof.
  induction 1 as [| r p refs pts Hr _ IH]; intros ext.
  - cbn. now rewrite app_nil_r.
  - cbn [mirror_objects]. unfold bindS, deref, new_Point, ret.
    rewrite nth_error_app1 by (apply nth_error_Some; congruence).
    rewrite Hr.
    specialize (IH (ext ++ [mkPoint (1 - x p) (y p) (z p)])).
    rewrite app_assoc in IH. rewrite IH.
    rewrite (length_app (s ++ ext)). cbn [List.length seq mirror map].
    rewrite Nat.add_1_r. unfold mirror_point.
    rewrite <- (app_assoc (s ++ ext)). reflexivity.
Qed.

Lemma Forall2_same_length {A B} (P : A -> B -> Prop) (l : list A) (l' : list B) :
  Forall2 P l l' -> List.length l = List.length l'.
Proof. induction 1; cbn; congruence. Qed.

Lemma invalid_input_same_length {A B} (l : list A) (l' : list B) :
  List.length l = List.length l' ->
  invalid_input (Some l) = invalid_input (Some l').
Proof.
  intros H. unfold invalid_input, not_. rewrite H.
  destruct l, l'; try discriminate; reflexivity.
Qed.


(** A mirroring detector on objects: the value-level answer, and the
    mirrored points appended to the store when the guard lets it run. *)
Lemma mirrored_detector_agrees
    (internal : option (list Point) -> result bool)
    (refs : list ref) (s : Store) (pts : list Point) :
  load refs s = (Ok pts, s) ->
  mirrored_detector internal (Some refs) s =
  if invalid_input (Some pts) then (Ok false, s)
  else (internal (Some (mirror pts)), s ++ mirror pts).
Proof.
  intros H. apply load_ok in H as [_ HF].
  unfold mirrored_detector.
  rewrite (invalid_input_same_length refs pts (Forall2_same_length _ _ _ HF)).
  destruct (invalid_input (Some pts)); [reflexivity |].
  unfold bindS.
  pose proof (mirror_objects_ok refs s pts HF []) as Hm.
  rewrite app_nil_r in Hm. rewrite Hm.
  cbn [read_only]. unfold bindS.
  pose proof (load_fresh s (mirror pts) []) as Hl.
  rewrite app_nil_r, mirror_length in Hl.
  rewrite <- (Forall2_same_length _ _ _ HF) in Hl.
  unfold ref in *. now rewrite Hl.
Qed.

End Agreement.


(** The store after the D left-hand detector has run on the fist: the 21
    input objects, then their 21 mirror images. *)
Example D_left_store_after_fist :
  snd (Objects.call Objects.D_left_detect_left_hand (Some (seq 0 21)) fist_pose)
  = fist_pose ++ mirror fist_pose.
Proof.
  cbn [Objects.call]. unfold Objects.lift_pyval, Objects.bindS.
  rewrite (mirrored_detector_agrees _ (seq 0 21) fist_pose fist_pose)
    by reflexivity.
  rewrite invalid_input_false by (cbn; lia).
  destruct (D_left._detect_d_internal (Some (mirror fist_pose))); reflexivity.
Qed.

(* ------------------------------------------------------------------ *)
(** ** The statements at concrete inputs                               *)
(* ------------------------------------------------------------------ *)

Lemma C2_bent_and_flat_hand_witness :
  (returns_true (rule_A Right (Some (handler_points bent_hand_pose))) = true /\
   returns_true
     (rule_B never_B_left Right (Some (handler_points bent_hand_pose))) = true /\
   ws_server.classify never_B_left never_C_right bent_hand_pose (Some "Right") =
   Ok "A") /\
  (returns_true (rule_A Right (Some (handler_points flat_hand_pose))) = false /\
   returns_true
     (rule_B never_B_left Right (Some (handler_points flat_hand_pose))) = true /\
   ws_server.classify never_B_left never_C_right flat_hand_pose (Some "Right") =
   Ok "B").
Proof.
  assert (HBl : forall l : list Point, List.length l = 21%nat ->
                exists v, never_B_left (Some l) = Ok v)
    by (intros l _; exists (PStr ""); reflexivity).
  assert (HCr : forall l : list Point, List.length l = 21%nat ->
                exists v, never_C_right (Some l) = Ok v)
    by (intros l _; exists (PBool false); reflexivity).
  assert (Abent : returns_true
            (rule_A Right (Some (handler_points bent_hand_pose))) = true)
    by (rewrite handler_points_bent; cbn [rule_A];
        rewrite bent_A_right; reflexivity).
  assert (Bbent : returns_true
            (rule_B never_B_left Right
               (Some (handler_points bent_hand_pose))) = true)
    by (rewrite handler_points_bent; cbn [rule_B];
        rewrite bent_B_right; reflexivity).
  assert (Aflat : returns_true
            (rule_A Right (Some (handler_points flat_hand_pose))) = false)
    by (rewrite handler_points_flat; cbn [rule_A];
        rewrite flat_A_right; reflexivity).
  assert (Bflat : returns_true
            (rule_B never_B_left Right
               (Some (handler_points flat_hand_pose))) = true)
    by (rewrite handler_points_flat; cbn [rule_B];
        rewrite flat_B_right; reflexivity).
  split.
  - split; [exact Abent |]. split; [exact Bbent |].
    exact (proj1 (proj2 (C2_first_match_in_registration_order
                           never_B_left never_C_right bent_hand_pose Right
                           eq_refl HBl HCr)) Abent).
  - split; [exact Aflat |]. split; [exact Bflat |].
    exact (proj1 (proj2 (proj2 (C2_first_match_in_registration_order
                                  never_B_left never_C_right flat_hand_pose
                                  Right eq_refl HBl HCr))) Aflat Bflat).
Defined.

Lemma C3_fist_witness :
  D_left.detect_left_hand (Some (mirror fist_pose)) =
  D_right.detect_right_hand (Some fist_pose).
Proof.
  refine (proj1 (C3_mirror_symmetry_by_rule fist_pose _)).
  reflexivity.
Defined.

Lemma C4_unknown_label_witness :
  ws_server.classify never_B_left never_C_right fist_pose (Some "Unknown") =
  ws_server.classify never_B_left never_C_right fist_pose (Some "Right").
Proof.
  apply (C4_not_Left_is_classified_as_Right
           never_B_left never_C_right fist_pose "Unknown").
  discriminate.
Defined.

Lemma C5_doubled_flat_hand_witness :
  A_right.detect_right_hand (Some (scale_about_wrist 2 flat_hand_pose)) =
  A_right.detect_right_hand (Some flat_hand_pose).
Proof.
  refine (proj1 (C5_scale_invariance_by_rule 2 flat_hand_pose _ _)).
  - lra.
  - reflexivity.
Defined.

Lemma C7_fist_witness : B_right.detect_right_hand (Some fist_pose) = Ok "".
Proof.
  apply (C7_B_right_requires_positive_cross fist_pose
           (Point_xy 0.50 0.90) (Point_xy 0.56 0.60) (Point_xy 0.44 0.62)).
  - reflexivity.
  - reflexivity.
  - reflexivity.
  - reflexivity.
  - cbn [item2 cross vec x y z Point_xy]. lra.
Defined.

Lemma C8_fist_witness : F_right.detect_right_hand (Some fist_pose) = Ok false.
Proof.
  apply (C8_F_right_requires_tip_contact fist_pose
           (Point_xy 0.64 0.66) (Point_xy 0.56 0.55)
           (Point_xy 0.56 0.60) (Point_xy 0.44 0.62)).
  - reflexivity.
  - reflexivity.
  - reflexivity.
  - reflexivity.
  - reflexivity.
  - unfold distance. cbn [x y z Point_xy].
    match goal with
    | |- sqrt ?a >= 0.3 * sqrt ?b =>
        assert (H : sqrt b <= sqrt a) by (apply sqrt_le_1_alt; lra);
        pose proof (sqrt_pos b)
    end.
    lra.
Defined.

Lemma C9_22_points_witness :
  B_right.detect_right_hand (Some (fist_pose ++ [Point_xy 0 0])) = Ok "" /\
  D_right.detect_right_hand (Some (fist_pose ++ [Point_xy 0 0])) =
  D_right.detect_right_hand (Some (firstn 21 (fist_pose ++ [Point_xy 0 0]))).
Proof.
  apply (C9_lists_longer_than_21 (fist_pose ++ [Point_xy 0 0])).
  cbn. lia.
Defined.

(* ================================================================== *)
(** * Further properties of the code                                   *)
(* ================================================================== *)

(* ------------------------------------------------------------------ *)
(** ** Lists that are too short                                        *)
(* ------------------------------------------------------------------ *)

Lemma angle_deg_returns (a b c : Point) : exists v, angle_deg a b c = Ok v.
Proof.
  unfold angle_deg.
  destruct ((norm (vec b a) <? 1e-8) || (norm (vec b c) <? 1e-8));
    [eexists; reflexivity |].
  rewrite math_acos_defined by apply clamp_in_range.
  eexists; reflexivity.
Qed.

Ltac settle_angles :=
  repeat match goal with
    | |- context [angle_deg ?a ?b ?c] =>
        let v := fresh "deg" in
        let E := fresh "E" in
        destruct (angle_deg_returns a b c) as [v E]; rewrite E; cbn [bind]
    end.

Lemma valid_or_invalid {A} (landmarks : option (list A)) :
  invalid_input landmarks = true \/
  exists l, landmarks = Some l /\ (21 <= List.length l)%nat.
Proof.
  destruct landmarks as [l |]; [| now left].
  destruct (le_lt_dec 21 (List.length l)) as [H | H].
  - right; exists l; split; [reflexivity | exact H].
  - left; apply invalid_input_true; right; exists l; split;
      [reflexivity | exact H].
Qed.

(** X1.  Each A detector raises [IndexError] exactly on the lists shorter
    than 21 points; on every other list it returns, and what it returns
    is ["A"] or [""]. *)
Theorem X1_A_raises_exactly_on_short_lists (l : list Point) :
  (A_right.detect_right_hand (Some l) = Raise IndexError <->
   (List.length l < 21)%nat) /\
  (A_left.detect_left_hand (Some l) = Raise IndexError <->
   (List.length l < 21)%nat) /\
  ((exists s, A_right.detect_right_hand (Some l) = Ok s /\
              (s = "A" \/ s = "")) <->
   (21 <= List.length l)%nat) /\
  ((exists s, A_left.detect_left_hand (Some l) = Ok s /\
              (s = "A" \/ s = "")) <->
   (21 <= List.length l)%nat).
Proof.
  destruct (le_lt_dec 21 (List.length l)) as [Hlong | Hshort].
  - destruct (A_right_returns l Hlong) as [s [Es Hs]].
    destruct (A_left_returns l Hlong) as [s' [Es' Hs']].
    repeat split; intros; try lia; try congruence; eauto.
  - pose proof (A_right_short_list_raises l Hshort) as Er.
    pose proof (A_left_short_list_raises l Hshort) as El.
    repeat split; intros H; try assumption; try lia.
    + destruct H as [s [Es _]]; congruence.
    + destruct H as [s [Es _]]; congruence.
Qed.

(** X3.  On [None] and on every list of fewer than 21 points the C, D, E
    and F detectors answer [False]. *)
Theorem X3_guarded_detectors_reject_short_input (l : list Point) :
  (List.length l < 21)%nat ->
  (forall landmarks, landmarks = None \/ landmarks = Some l ->
     C_left.detect_left_hand landmarks = Ok false /\
     D_right.detect_right_hand landmarks = Ok false /\
     D_left.detect_left_hand landmarks = Ok false /\
     E_left.detect_left_hand landmarks = Ok false /\
     F_right.detect_right_hand landmarks = Ok false /\
     F_left.detect_left_hand_f_real_camera landmarks = Ok false).
Proof.
  intros Hlen landmarks H.
  apply guarded_detectors_no_match, invalid_input_true.
  destruct H as [-> | ->]; [now left |].
  right; exists l; split; [reflexivity | exact Hlen].
Qed.


Lemma X3_twenty_points_witness :
  D_right.detect_right_hand (Some (firstn 20 fist_pose)) = Ok false.
Proof.
  refine (proj1 (proj2 (X3_guarded_detectors_reject_short_input
                          (firstn 20 fist_pose) _
                          (Some (firstn 20 fist_pose)) (or_intror eq_refl)))).
  cbn. lia.
Defined.

(* ------------------------------------------------------------------ *)
(** ** Depth is ignored by the A and B rules and by the handler        *)
(* ------------------------------------------------------------------ *)

Lemma handler_points_of_xy (L : list Point) :
  handler_points L = map (fun '(a, b) => Point_xy a b) (xy_of L).
Proof. unfold handler_points, xy_of. rewrite map_map. reflexivity. Qed.

Lemma same_xy_same_handler_points (L L' : list Point) :
  xy_of L = xy_of L' -> handler_points L = handler_points L'.
Proof. intros H. rewrite !handler_points_of_xy, H. reflexivity. Qed.

Lemma A_right_ignores_z (L : list Point) :
  A_right.detect_right_hand (Some (handler_points L)) =
  A_right.detect_right_hand (Some L).
Proof.
  destruct (le_lt_dec 21 (List.length L)) as [Hlen | Hlen].
  - explode21 L Hlen. reflexivity.
  - rewrite !A_right_short_list_raises;
      rewrite ?handler_points_length; [reflexivity | exact Hlen | exact Hlen].
Qed.

Lemma A_left_ignores_z (L : list Point) :
  A_left.detect_left_hand (Some (handler_points L)) =
  A_left.detect_left_hand (Some L).
Proof.
  destruct (le_lt_dec 21 (List.length L)) as [Hlen | Hlen].
  - explode21 L Hlen. reflexivity.
  - rewrite !A_left_short_list_raises;
      rewrite ?handler_points_length; [reflexivity | exact Hlen | exact Hlen].
Qed.

Lemma B_right_ignores_z (d : B_right.RightHandGestureDetector) (L : list Point) :
  B_right.detect_right_hand_b_gesture d (Some (handler_points L)) =
  B_right.detect_right_hand_b_gesture d (Some L).
Proof.
  destruct (Nat.eq_dec (List.length L) 21) as [Hlen | Hlen].
  - explode_exact21 L Hlen. reflexivity.
  - unfold B_right.detect_right_hand_b_gesture. cbn [len bind].
    rewrite handler_points_length.
    destruct (Nat.eqb_spec (List.length L) 21); [contradiction | reflexivity].
Qed.

(** X4.  The A and B rules read only [x] and [y]: two landmark lists with
    the same image-plane coordinates get the same answer from both A
    detectors and from the B detector, whatever its threshold. *)
Theorem X4_A_and_B_ignore_depth (L L' : list Point) :
  xy_of L = xy_of L' ->
  A_right.detect_right_hand (Some L) = A_right.detect_right_hand (Some L') /\
  A_left.detect_left_hand (Some L) = A_left.detect_left_hand (Some L') /\
  (forall d,
     B_right.detect_right_hand_b_gesture d (Some L) =
     B_right.detect_right_hand_b_gesture d (Some L')).
Proof.
  intros H. apply same_xy_same_handler_points in H.
  split; [| split; [| intros d]].
  - rewrite <- (A_right_ignores_z L), <- (A_right_ignores_z L'), H.
    reflexivity.
  - rewrite <- (A_left_ignores_z L), <- (A_left_ignores_z L'), H.
    reflexivity.
  - rewrite <- (B_right_ignores_z d L), <- (B_right_ignores_z d L'), H.
    reflexivity.
Qed.

Lemma X4_lifted_fist_witness :
  A_right.detect_right_hand (Some fist_pose) =
  A_right.detect_right_hand
    (Some (map (fun p => mkPoint p.(x) p.(y) 5) fist_pose)).
Proof.
  refine (proj1 (X4_A_and_B_ignore_depth fist_pose
                   (map (fun p => mkPoint p.(x) p.(y) 5) fist_pose) _)).
  reflexivity.
Defined.

(** X5.  [detect_from_mediapipe_right_hand] gives, on every landmark list,
    the answer [detect_right_hand] gives on that list: dropping [z] on the
    way changes nothing. *)
Theorem X5_from_mediapipe_is_detect_right_hand (hand_landmarks : list Point) :
  B_right.detect_from_mediapipe_right_hand hand_landmarks =
  B_right.detect_right_hand (Some hand_landmarks).
Proof.
  unfold B_right.detect_from_mediapipe_right_hand, B_right.detect_right_hand.
  cbv zeta. apply (B_right_ignores_z B_right.init_default hand_landmarks).
Qed.

(** X6.  The handler classifies from [x] and [y] alone: two hands with the
    same image-plane coordinates are classified alike, under every
    handedness, since [convert_mediapipe_to_points] rebuilds every point
    as [Point(lm.x, lm.y)]. *)
Theorem X6_handler_ignores_depth
    (Bl Cr : option (list Point) -> result pyval)
    (L L' : list Point) (label : option string) :
  xy_of L = xy_of L' ->
  ws_server.classify Bl Cr L label = ws_server.classify Bl Cr L' label.
Proof.
  intros H. apply same_xy_same_handler_points in H.
  rewrite !classify_cascade, H. reflexivity.
Qed.

Lemma X6_lifted_fist_witness :
  ws_server.classify never_B_left never_C_right fist_pose (Some "Left") =
  ws_server.classify never_B_left never_C_right
    (map (fun p => mkPoint p.(x) p.(y) 5) fist_pose) (Some "Left").
Proof.
  apply (X6_handler_ignores_depth never_B_left never_C_right fist_pose
           (map (fun p => mkPoint p.(x) p.(y) 5) fist_pose) (Some "Left")).
  reflexivity.
Defined.

(* ------------------------------------------------------------------ *)
(** ** The B detector's threshold                                      *)
(* ------------------------------------------------------------------ *)

Lemma B_aligned_monotone
    (d d' : B_right.RightHandGestureDetector) (lms : option (list Point)) :
  B_right.thumb_alignment_threshold d <= B_right.thumb_alignment_threshold d' ->
  B_right._is_thumb_aligned_horizontally d lms = Ok true ->
  B_right._is_thumb_aligned_horizontally d' lms = Ok true.
Proof.
  intros Hle. unfold B_right._is_thumb_aligned_horizontally.
  destruct (getitem lms B_right.THUMB_TIP) as [t | e]; cbn [bind];
    [| discriminate].
  destruct (getitem lms B_right.INDEX_MCP) as [i | e]; cbn [bind];
    [| discriminate].
  intros H. injection H as H. apply Rltb_true in H.
  f_equal. apply Rltb_true. lra.
Qed.

Lemma B_aligned_needs_positive_threshold
    (d : B_right.RightHandGestureDetector) (lms : option (list Point)) :
  B_right.thumb_alignment_threshold d <= 0 ->
  B_right._is_thumb_aligned_horizontally d lms <> Ok true.
Proof.
  intros Hle. unfold B_right._is_thumb_aligned_horizontally.
  destruct (getitem lms B_right.THUMB_TIP) as [t | e]; cbn [bind];
    [| discriminate].
  destruct (getitem lms B_right.INDEX_MCP) as [i | e]; cbn [bind];
    [| discriminate].
  intros H. injection H as H. apply Rltb_true in H.
  pose proof (Rabs_pos (y t - y i)). lra.
Qed.

(** The B gesture is reported exactly when the length is 21 and the four
    tests, taken in order, all answer true; only the last depends on the
    detector object. *)
Lemma B_gesture_is_B
    (d : B_right.RightHandGestureDetector) (L : list Point) :
  B_right.detect_right_hand_b_gesture d (Some L) = Ok "B" <->
  List.length L = 21%nat /\
  B_right._is_right_hand_palm_visible B_right.init_default (Some L) = Ok true /\
  B_right._are_four_fingers_extended B_right.init_default (Some L) = Ok true /\
  B_right._is_thumb_folded_against_palm B_right.init_default (Some L) = Ok true /\
  B_right._is_thumb_aligned_horizontally d (Some L) = Ok true.
Proof.
  unfold B_right.detect_right_hand_b_gesture, B_right.and_then.
  cbn [len bind].
  change (B_right._is_right_hand_palm_visible d (Some L))
    with (B_right._is_right_hand_palm_visible B_right.init_default (Some L)).
  change (B_right._are_four_fingers_extended d (Some L))
    with (B_right._are_four_fingers_extended B_right.init_default (Some L)).
  change (B_right._is_thumb_folded_against_palm d (Some L))
    with (B_right._is_thumb_folded_against_palm B_right.init_default (Some L)).
  destruct (Nat.eqb_spec (List.length L) 21) as [Hlen | Hlen]; cbn [negb].
  2: { split; [discriminate | intros [H _]; contradiction]. }
  destruct (B_right._is_right_hand_palm_visible _ _) as [[|] | e]; cbn [bind negb];
    try (split; [discriminate | intros (_ & H & _); discriminate]).
  destruct (B_right._are_four_fingers_extended _ _) as [[|] | e]; cbn [bind];
    try (split; [discriminate | intros (_ & _ & H & _); discriminate]).
  destruct (B_right._is_thumb_folded_against_palm _ _) as [[|] | e]; cbn [bind];
    try (split; [discriminate | intros (_ & _ & _ & H & _); discriminate]).
  destruct (B_right._is_thumb_aligned_horizontally d (Some L)) as [[|] | e];
    cbn [bind];
    try (split; [discriminate | intros (_ & _ & _ & _ & H); discriminate]).
  split; intros _; repeat split; assumption.
Qed.

(** X7.  A larger alignment threshold only widens the B gesture: whatever
    a detector with threshold [t] reports as ["B"], every detector with a
    threshold of at least [t] reports as ["B"] as well. *)
Theorem X7_B_threshold_monotone
    (d d' : B_right.RightHandGestureDetector) (L : list Point) :
  B_right.thumb_alignment_threshold d <= B_right.thumb_alignment_threshold d' ->
  B_right.detect_right_hand_b_gesture d (Some L) = Ok "B" ->
  B_right.detect_right_hand_b_gesture d' (Some L) = Ok "B".
Proof.
  intros Hle H. apply B_gesture_is_B in H as (H1 & H2 & H3 & H4 & H5).
  apply B_gesture_is_B. repeat split; try assumption.
  eapply B_aligned_monotone; eassumption.
Qed.

Lemma X7_wider_threshold_witness :
  B_right.detect_right_hand_b_gesture
    {| B_right.thumb_alignment_threshold := 0.2 |} (Some flat_hand_pose) = Ok "B".
Proof.
  apply (X7_B_threshold_monotone B_right.init_default
           {| B_right.thumb_alignment_threshold := 0.2 |} flat_hand_pose).
  - cbn. lra.
  - exact flat_B_right.
Defined.

(** X8.  A detector built with a threshold that is zero or negative never
    reports the B gesture, on any list. *)
Theorem X8_B_nonpositive_threshold_never_matches
    (d : B_right.RightHandGestureDetector) (L : list Point) :
  B_right.thumb_alignment_threshold d <= 0 ->
  B_right.detect_right_hand_b_gesture d (Some L) = Ok "".
Proof.
  intros Hle.
  assert (Hret : exists s, B_right.detect_right_hand_b_gesture d (Some L) = Ok s
                           /\ (s = "B" \/ s = "")).
  { destruct (Nat.eq_dec (List.length L) 21) as [Hlen | Hlen].
    - explode_exact21 L Hlen.
      unfold B_right.detect_right_hand_b_gesture,
        B_right._is_right_hand_palm_visible, B_right._are_four_fingers_extended,
        B_right._is_thumb_folded_against_palm,
        B_right._is_thumb_aligned_horizontally, B_right.and_then.
      cbn [len List.length Nat.eqb negb bind getitem nth_error
           B_right.INDEX_MCP B_right.WRIST B_right.PINKY_MCP
           B_right.INDEX_TIP B_right.MIDDLE_TIP B_right.MIDDLE_MCP
           B_right.RING_TIP B_right.RING_MCP B_right.PINKY_TIP
           B_right.THUMB_TIP B_right.THUMB_IP].
      cbv zeta.
      repeat match goal with
        | |- context [if ?c then _ else _] => destruct c; cbn [bind negb]
        end; eexists; split; eauto.
    - exists "". split; [| now right].
      unfold B_right.detect_right_hand_b_gesture. cbn [len bind].
      destruct (Nat.eqb_spec (List.length L) 21); [contradiction | reflexivity]. }
  destruct Hret as [s [Es [-> | ->]]]; [| exact Es].
  apply B_gesture_is_B in Es as (_ & _ & _ & _ & H).
  now apply B_aligned_needs_positive_threshold in H.
Qed.

Lemma X8_zero_threshold_witness :
  B_right.detect_right_hand_b_gesture
    {| B_right.thumb_alignment_threshold := 0 |} (Some flat_hand_pose) = Ok "".
Proof.
  apply (X8_B_nonpositive_threshold_never_matches
           {| B_right.thumb_alignment_threshold := 0 |} flat_hand_pose).
  cbn. lra.
Defined.

(* ------------------------------------------------------------------ *)
(** ** Distances and angles                                            *)
(* ------------------------------------------------------------------ *)

Lemma sum_of_squares_nonneg (a b c : R) : 0 <= a ^ 2 + b ^ 2 + c ^ 2.
Proof. pose proof (pow2_ge_0 a); pose proof (pow2_ge_0 b);
       pose proof (pow2_ge_0 c); lra. Qed.

Lemma cauchy_schwarz3 (a b c d e f : R) :
  (a * d + b * e + c * f) ^ 2 <=
  (a ^ 2 + b ^ 2 + c ^ 2) * (d ^ 2 + e ^ 2 + f ^ 2).
Proof.
  assert (E : (a ^ 2 + b ^ 2 + c ^ 2) * (d ^ 2 + e ^ 2 + f ^ 2) -
              (a * d + b * e + c * f) ^ 2 =
              (a * e - b * d) ^ 2 + (b * f - c * e) ^ 2 + (c * d - a * f) ^ 2)
    by ring.
  pose proof (sum_of_squares_nonneg (a * e - b * d) (b * f - c * e)
                (c * d - a * f)).
  lra.
Qed.

Lemma norm_nonneg (u : ndarray3) : 0 <= norm u.
Proof. destruct u as [[u0 u1] u2]; apply sqrt_pos. Qed.

Lemma norm_squared (u : ndarray3) : norm u * norm u = dot u u.
Proof.
  destruct u as [[u0 u1] u2]; unfold norm, dot.
  rewrite sqrt_sqrt by apply sum_of_squares_nonneg. ring.
Qed.

Lemma dot_le_norms (u v : ndarray3) : Rabs (dot u v) <= norm u * norm v.
Proof.
  destruct u as [[u0 u1] u2], v as [[v0 v1] v2]; unfold norm, dot.
  rewrite <- sqrt_mult by apply sum_of_squares_nonneg.
  rewrite <- sqrt_Rsqr_abs, Rsqr_pow2.
  apply sqrt_le_1_alt, cauchy_schwarz3.
Qed.

Lemma quotient_in_range (u v : ndarray3) :
  0 < norm u * norm v -> -1 <= dot u v / (norm u * norm v) <= 1.
Proof.
  intros Hpos. pose proof (dot_le_norms u v) as H.
  set (n := norm u * norm v) in *. set (d := dot u v) in *.
  assert (Hd : d = d / n * n) by (field; lra).
  set (q := d / n) in *.
  assert (Habs : - n <= d <= n).
  { unfold Rabs in H. destruct (Rcase_abs d); lra. }
  split; nra.
Qed.

Lemma clamp_of_in_range (q : R) :
  -1 <= q <= 1 -> Rmax (-1.0) (Rmin 1.0 q) = q.
Proof.
  intros [Hlo Hhi]. rewrite Rmin_right by lra. apply Rmax_right; lra.
Qed.

Lemma distance_sym (a b : Point) : distance a b = distance b a.
Proof. unfold distance; f_equal; ring. Qed.

(** The two branches of [angle_deg], with the clamp resolved. *)
Lemma angle_deg_value (a vertex b : Point) :
  angle_deg a vertex b =
  Ok (if (distance a vertex <? 1e-8) || (distance b vertex <? 1e-8)
      then 180.0
      else math_degrees
             (acos (dot (vec vertex a) (vec vertex b) /
                    (distance a vertex * distance b vertex)))).
Proof.
  unfold angle_deg.
  change (norm (vec vertex a)) with (distance a vertex).
  change (norm (vec vertex b)) with (distance b vertex).
  destruct ((distance a vertex <? 1e-8) || (distance b vertex <? 1e-8))
    eqn:Hdeg; [reflexivity |].
  pose proof (angle_deg_divisor_positive _ _ Hdeg) as Hpos.
  pose proof (quotient_in_range (vec vertex a) (vec vertex b) Hpos) as Hq.
  change (norm (vec vertex a)) with (distance a vertex) in Hq.
  change (norm (vec vertex b)) with (distance b vertex) in Hq.
  rewrite (clamp_of_in_range _ Hq), (math_acos_defined _ Hq).
  reflexivity.
Qed.

(** X9.  [angle_deg] returns the geometric angle: unless a ray is shorter
    than 1e-8 (then the answer is 180), the cosine of the returned angle
    times the two ray lengths is the dot product of the two rays; the
    clamp never changes the quotient in exact arithmetic. *)
Theorem X9_angle_deg_satisfies_cosine_law (a vertex b : Point) :
  exists deg : R,
    angle_deg a vertex b = Ok deg /\
    (if (distance a vertex <? 1e-8) || (distance b vertex <? 1e-8)
     then deg = 180
     else cos (deg * (PI / 180)) * (distance a vertex * distance b vertex) =
          dot (vec vertex a) (vec vertex b)).
Proof.
  rewrite angle_deg_value.
  destruct ((distance a vertex <? 1e-8) || (distance b vertex <? 1e-8))
    eqn:Hdeg.
  - exists 180.0. split; [reflexivity | lra].
  - eexists; split; [reflexivity |].
    pose proof (angle_deg_divisor_positive _ _ Hdeg) as Hpos.
    pose proof (quotient_in_range (vec vertex a) (vec vertex b) Hpos) as Hq.
    change (norm (vec vertex a)) with (distance a vertex) in Hq.
    change (norm (vec vertex b)) with (distance b vertex) in Hq.
    pose proof PI_RGT_0 as Hpi.
    unfold math_degrees.
    match goal with
    | |- cos (acos ?q * _ * _) * _ = _ =>
        replace (acos q * (180 / PI) * (PI / 180)) with (acos q)
          by (field; lra)
    end.
    rewrite (cos_acos _ Hq).
    apply orb_false_elim in Hdeg as [Hd1 Hd2].
    apply Rltb_false in Hd1; apply Rltb_false in Hd2.
    field. split; lra.
Qed.

(** X10.  The angle does not depend on the order of the two end points. *)
Theorem X10_angle_deg_symmetric (a vertex b : Point) :
  angle_deg a vertex b = angle_deg b vertex a.
Proof.
  rewrite !angle_deg_value. rewrite orb_comm.
  destruct ((distance b vertex <? 1e-8) || (distance a vertex <? 1e-8));
    [reflexivity |].
  do 3 f_equal. f_equal.
  - destruct a, vertex, b; unfold dot, vec; cbn [x y z]. ring.
  - ring.
Qed.

(** X11.  Two rays of length at least 1e-8 that are perpendicular make an
    angle of exactly 90 degrees. *)
Theorem X11_angle_deg_perpendicular (a vertex b : Point) :
  1e-8 <= distance a vertex ->
  1e-8 <= distance b vertex ->
  dot (vec vertex a) (vec vertex b) = 0 ->
  angle_deg a vertex b = Ok 90.
Proof.
  intros H1 H2 Hdot. rewrite angle_deg_value.
  apply Rltb_false in H1; apply Rltb_false in H2. rewrite H1, H2. cbn [orb].
  rewrite Hdot. unfold Rdiv at 1. rewrite Rmult_0_l, acos_0.
  unfold math_degrees. f_equal. pose proof PI_RGT_0. field. lra.
Qed.

Lemma X11_axes_witness :
  angle_deg (mkPoint 1 0 0) (mkPoint 0 0 0) (mkPoint 0 1 0) = Ok 90.
Proof.
  apply (X11_angle_deg_perpendicular
           (mkPoint 1 0 0) (mkPoint 0 0 0) (mkPoint 0 1 0)).
  - unfold distance; cbn [x y z].
    replace ((1 - 0) ^ 2 + (0 - 0) ^ 2 + (0 - 0) ^ 2) with 1 by lra.
    rewrite sqrt_1. lra.
  - unfold distance; cbn [x y z].
    replace ((0 - 0) ^ 2 + (1 - 0) ^ 2 + (0 - 0) ^ 2) with 1 by lra.
    rewrite sqrt_1. lra.
  - unfold dot, vec; cbn [x y z]. lra.
Defined.

Lemma distance_zero_iff (a b : Point) :
  distance a b = 0 <-> x a = x b /\ y a = y b /\ z a = z b.
Proof.
  unfold distance; split.
  - intros H. apply sqrt_eq_0 in H; [| apply sum_of_squares_nonneg].
    pose proof (pow2_ge_0 (x a - x b)).
    pose proof (pow2_ge_0 (y a - y b)).
    pose proof (pow2_ge_0 (z a - z b)).
    repeat split; nra.
  - intros (-> & -> & ->).
    replace ((x b - x b) ^ 2 + (y b - y b) ^ 2 + (z b - z b) ^ 2) with 0 by ring.
    apply sqrt_0.
Qed.

Lemma distance_triangle (a b c : Point) :
  distance a c <= distance a b + distance b c.
Proof.
  set (u := (x a - x b, y a - y b, z a - z b) : ndarray3).
  set (v := (x b - x c, y b - y c, z b - z c) : ndarray3).
  change (distance a b) with (norm u). change (distance b c) with (norm v).
  pose proof (norm_nonneg u) as Hu. pose proof (norm_nonneg v) as Hv.
  pose proof (norm_squared u) as Huu. pose proof (norm_squared v) as Hvv.
  pose proof (dot_le_norms u v) as Hcs.
  assert (Hdot : dot u v <= norm u * norm v).
  { pose proof (Rle_abs (dot u v)). lra. }
  rewrite <- (sqrt_pow2 (norm u + norm v)) by lra.
  unfold distance. apply sqrt_le_1_alt.
  replace ((x a - x c) ^ 2 + (y a - y c) ^ 2 + (z a - z c) ^ 2)
    with (dot u u + dot v v + 2 * dot u v)
    by (unfold dot, u, v; ring).
  nra.
Qed.

(** X13.  [distance] is a metric on the points: symmetric, never
    negative, zero exactly between points with the same coordinates, and
    it satisfies the triangle inequality. *)
Theorem X13_distance_is_a_metric (a b c : Point) :
  distance a b = distance b a /\
  0 <= distance a b /\
  (distance a b = 0 <-> x a = x b /\ y a = y b /\ z a = z b) /\
  distance a c <= distance a b + distance b c.
Proof.
  split; [apply distance_sym |].
  split; [apply distance_nonneg |].
  split; [apply distance_zero_iff | apply distance_triangle].
Qed.

(* ------------------------------------------------------------------ *)
(** ** Rules that exclude each other                                   *)
(* ------------------------------------------------------------------ *)

Lemma Rmax_ge_l (a b : R) : a <= Rmax a b.
Proof. apply Rmax_l. Qed.

(** X14.  No landmark list is both a "D" and an "F" for the right-hand
    detectors: D wants the thumb tip farther from the index tip than a
    quarter of the palm width, F wants it nearer. *)
Theorem X14_D_and_F_right_exclusive (landmarks : option (list Point)) :
  D_right.detect_right_hand landmarks = Ok false \/
  F_right.detect_right_hand landmarks = Ok false.
Proof.
  destruct (valid_or_invalid landmarks) as [Hinv | [L [-> Hlen]]].
  - left. apply (guarded_detectors_no_match landmarks Hinv).
  - unfold D_right.detect_right_hand, F_right.detect_right_hand.
    rewrite (invalid_input_false L Hlen).
    explode21 L Hlen.
    unfold D_right.is_curled.
    cbn [bind getitem nth_error]. cbv zeta.
    settle_angles.
    set (pw := distance p4 p16).
    set (d := distance p3 p7).
    destruct (Rlt_dec d (pw * 0.25)) as [Hnear | Hfar].
    + left.
      replace (Rmax (pw * 0.25) 0.03 <? d) with false.
      * rewrite andb_false_r. reflexivity.
      * symmetry; apply Rltb_false.
        pose proof (Rmax_ge_l (pw * 0.25) 0.03). lra.
    + right.
      replace (d <? pw * 0.25) with false
        by (symmetry; apply Rltb_false; lra).
      reflexivity.
Qed.

(** X15.  No landmark list is both a "C" and an "F" for the left-hand
    detectors: C wants the thumb tip more than 0.6 palm widths from the
    index tip, F wants it within a quarter of a palm width. *)
Theorem X15_C_and_F_left_exclusive (landmarks : option (list Point)) :
  C_left.detect_left_hand landmarks = Ok false \/
  F_left.detect_left_hand_f_real_camera landmarks = Ok false.
Proof.
  destruct (valid_or_invalid landmarks) as [Hinv | [L [-> Hlen]]].
  - left. apply (guarded_detectors_no_match landmarks Hinv).
  - unfold C_left.detect_left_hand, F_left.detect_left_hand_f_real_camera.
    rewrite (invalid_input_false L Hlen).
    assert (Hm : (21 <= List.length (mirror L))%nat)
      by (rewrite mirror_length; exact Hlen).
    cbv zeta. generalize dependent (mirror L). clear L Hlen.
    intros M Hm. explode21 M Hm.
    unfold C_left._detect_c_shape_internal,
      F_left._detect_f_real_camera_internal.
    cbn [bind getitem nth_error]. cbv zeta.
    set (pw := distance p4 p16).
    set (d := distance p3 p7).
    pose proof (distance_nonneg p4 p16) as Hpw. fold pw in Hpw.
    destruct (Rlt_dec d (pw * 0.25)) as [Hnear | Hfar].
    + left.
      replace (0.6 * pw <? d) with false
        by (symmetry; apply Rltb_false; lra).
      cbn [andb]. rewrite andb_false_r. cbn [negb].
      repeat match goal with
        | |- context [if ?c then _ else _] => destruct c
        end; reflexivity.
    + right.
      replace (d <? pw * 0.25) with false
        by (symmetry; apply Rltb_false; lra).
      reflexivity.
Qed.

(* ------------------------------------------------------------------ *)
(** ** A palm of width zero                                            *)
(* ------------------------------------------------------------------ *)

Lemma distance_mirror (a b : Point) :
  distance (mirror_point a) (mirror_point b) = distance a b.
Proof. unfold distance, mirror_point; cbn [x y z]. f_equal. ring. Qed.

(** X16.  When the index MCP and the pinky MCP coincide (palm width 0)
    the rules whose thresholds are all fractions of the palm width can
    only answer [False]: F (both hands), C (left) and E (left). *)
Theorem X16_zero_palm_width_never_matches (L : list Point) :
  distance (lm L 5) (lm L 17) = 0 ->
  F_right.detect_right_hand (Some L) = Ok false /\
  F_left.detect_left_hand_f_real_camera (Some L) = Ok false /\
  C_left.detect_left_hand (Some L) = Ok false /\
  E_left.detect_left_hand (Some L) = Ok false.
Proof.
  intros Hpw.
  destruct (valid_or_invalid (Some L)) as [Hinv | [L' [E Hlen]]].
  - pose proof (guarded_detectors_no_match (Some L) Hinv). tauto.
  - injection E as <-.
    unfold F_right.detect_right_hand, F_left.detect_left_hand_f_real_camera,
      C_left.detect_left_hand, E_left.detect_left_hand.
    rewrite (invalid_input_false L Hlen).
    explode21 L Hlen. unfold lm in Hpw. cbn [nth] in Hpw.
    assert (Hpw' : distance (mirror_point p4) (mirror_point p16) = 0)
      by (rewrite distance_mirror; exact Hpw).
    unfold F_left._detect_f_real_camera_internal,
      C_left._detect_c_shape_internal.
    cbv beta iota zeta
      delta [bind getitem nth_error flat_map seq map app fold_right
             Nat.add Nat.sub E_left.max_seq mirror].
    rewrite Hpw, Hpw'.
    repeat split.
    + pose proof (distance_nonneg p3 p7).
      replace (distance p3 p7 <? 0 * 0.25) with false
        by (symmetry; apply Rltb_false; lra).
      reflexivity.
    + pose proof (distance_nonneg (mirror_point p3) (mirror_point p7)).
      replace (distance (mirror_point p3) (mirror_point p7) <? 0 * 0.25)
        with false by (symmetry; apply Rltb_false; lra).
      reflexivity.
    + pose proof (distance_nonneg (mirror_point p3) (mirror_point p7)).
      replace (distance (mirror_point p3) (mirror_point p7) <? 1.8 * 0)
        with false by (symmetry; apply Rltb_false; lra).
      rewrite andb_false_r. cbn [andb]. rewrite andb_false_r. cbn [negb].
      repeat match goal with
        | |- context [if ?c then _ else _] => destruct c
        end; reflexivity.
    + match goal with
      | |- context [Rltb (distance p3 ?c) (0 * 0.6)] =>
          pose proof (distance_nonneg p3 c);
          replace (Rltb (distance p3 c) (0 * 0.6)) with false
            by (symmetry; apply Rltb_false; lra)
      end.
      cbn [andb]. rewrite andb_false_r. reflexivity.
Qed.

Lemma X16_collapsed_hand_witness :
  F_right.detect_right_hand (Some (repeat (Point_xy 0.5 0.5) 21)) = Ok false.
Proof.
  refine (proj1 (X16_zero_palm_width_never_matches
                   (repeat (Point_xy 0.5 0.5) 21) _)).
  apply distance_zero_iff. repeat split.
Defined.

(* ------------------------------------------------------------------ *)
(** ** Moving the hand in the frame                                    *)
(* ------------------------------------------------------------------ *)

Lemma lt_shift (a b a' b' : R) : a' - b' = a - b -> (a' < b' <-> a < b).
Proof. intros E; split; intros H; lra. Qed.

Ltac same_after_shift :=
  repeat match goal with
    | |- Ok _ = Ok _ => apply f_equal
    | |- andb _ _ = andb _ _ => apply f_equal2
    | |- (if _ then _ else _) = (if _ then _ else _) => apply if_cong
    | |- Rltb (Rabs _) _ = Rltb (Rabs _) _ =>
        apply f_equal2; [apply f_equal; ring | reflexivity]
    | |- Rltb _ _ = Rltb _ _ => apply Rltb_ext; apply lt_shift; ring
    | |- _ => reflexivity
    end.

Ltac run_shifted :=
  cbn [bind getitem nth_error map translate translate_point x y z
       all forallb
       B_right.INDEX_MCP B_right.WRIST B_right.PINKY_MCP
       B_right.INDEX_TIP B_right.MIDDLE_TIP B_right.MIDDLE_MCP
       B_right.RING_TIP B_right.RING_MCP B_right.PINKY_TIP
       B_right.THUMB_TIP B_right.THUMB_IP];
  cbv zeta.

Lemma translate_length (dx dy dz : R) (L : list Point) :
  List.length (translate dx dy dz L) = List.length L.
Proof. apply length_map. Qed.

Lemma A_right_translation (dx dy dz : R) (L : list Point) :
  A_right.detect_right_hand (Some (translate dx dy dz L)) =
  A_right.detect_right_hand (Some L).
Proof.
  destruct (le_lt_dec 21 (List.length L)) as [Hlen | Hlen].
  - explode21 L Hlen. unfold A_right.detect_right_hand. run_shifted.
    same_after_shift.
  - rewrite !A_right_short_list_raises;
      rewrite ?translate_length; [reflexivity | exact Hlen | exact Hlen].
Qed.

Lemma A_left_translation (dx dy dz : R) (L : list Point) :
  A_left.detect_left_hand (Some (translate dx dy dz L)) =
  A_left.detect_left_hand (Some L).
Proof.
  destruct (le_lt_dec 21 (List.length L)) as [Hlen | Hlen].
  - explode21 L Hlen. unfold A_left.detect_left_hand. run_shifted.
    same_after_shift.
  - rewrite !A_left_short_list_raises;
      rewrite ?translate_length; [reflexivity | exact Hlen | exact Hlen].
Qed.

Lemma B_tests_translation
    (d : B_right.RightHandGestureDetector) (dx dy dz : R) (L : list Point) :
  List.length L = 21%nat ->
  B_right._is_right_hand_palm_visible d (Some (translate dx dy dz L)) =
    B_right._is_right_hand_palm_visible d (Some L) /\
  B_right._are_four_fingers_extended d (Some (translate dx dy dz L)) =
    B_right._are_four_fingers_extended d (Some L) /\
  B_right._is_thumb_folded_against_palm d (Some (translate dx dy dz L)) =
    B_right._is_thumb_folded_against_palm d (Some L) /\
  B_right._is_thumb_aligned_horizontally d (Some (translate dx dy dz L)) =
    B_right._is_thumb_aligned_horizontally d (Some L).
Proof.
  intros Hlen. explode_exact21 L Hlen.
  unfold B_right._is_right_hand_palm_visible,
    B_right._are_four_fingers_extended,
    B_right._is_thumb_folded_against_palm,
    B_right._is_thumb_aligned_horizontally.
  run_shifted.
  repeat split; same_after_shift.
Qed.

Lemma B_right_translation
    (d : B_right.RightHandGestureDetector) (dx dy dz : R) (L : list Point) :
  B_right.detect_right_hand_b_gesture d (Some (translate dx dy dz L)) =
  B_right.detect_right_hand_b_gesture d (Some L).
Proof.
  unfold B_right.detect_right_hand_b_gesture. cbn [len bind].
  rewrite translate_length.
  destruct (Nat.eqb_spec (List.length L) 21) as [Hlen | Hlen];
    [| reflexivity].
  destruct (B_tests_translation d dx dy dz L Hlen) as (-> & -> & -> & ->).
  reflexivity.
Qed.

(** X17.  The A and B rules look at differences of coordinates only:
    moving every landmark of a list by the same displacement changes the
    answer of neither A detector nor of the B detector, on any list. *)
Theorem X17_A_and_B_translation_invariant (dx dy dz : R) (L : list Point) :
  A_right.detect_right_hand (Some (translate dx dy dz L)) =
    A_right.detect_right_hand (Some L) /\
  A_left.detect_left_hand (Some (translate dx dy dz L)) =
    A_left.detect_left_hand (Some L) /\
  (forall d,
     B_right.detect_right_hand_b_gesture d (Some (translate dx dy dz L)) =
     B_right.detect_right_hand_b_gesture d (Some L)).
Proof.
  split; [apply A_right_translation |].
  split; [apply A_left_translation |].
  intros d; apply B_right_translation.
Qed.

Lemma distance_translate (dx dy dz : R) (a b : Point) :
  distance (translate_point dx dy dz a) (translate_point dx dy dz b) =
  distance a b.
Proof. unfold distance, translate_point; cbn [x y z]. f_equal. ring. Qed.

Lemma vec_translate (dx dy dz : R) (a b : Point) :
  vec (translate_point dx dy dz a) (translate_point dx dy dz b) = vec a b.
Proof.
  unfold vec, translate_point; cbn [x y z].
  f_equal; [f_equal |]; ring.
Qed.

Lemma angle_deg_translate (dx dy dz : R) (a b c : Point) :
  angle_deg (translate_point dx dy dz a) (translate_point dx dy dz b)
    (translate_point dx dy dz c) =
  angle_deg a b c.
Proof. unfold angle_deg. rewrite !vec_translate. reflexivity. Qed.

Lemma mirror_translate (dx dy dz : R) (L : list Point) :
  mirror (translate dx dy dz L) = translate (- dx) dy dz (mirror L).
Proof.
  unfold mirror, translate. rewrite !map_map. apply map_ext.
  intros p. unfold mirror_point, translate_point; cbn [x y z].
  f_equal; ring.
Qed.

Ltac unshift dy :=
  repeat match goal with
    | |- context [Rltb (?a + dy) (?b + dy - ?c)] =>
        replace (Rltb (a + dy) (b + dy - c)) with (Rltb a (b - c))
          by (apply Rltb_ext; lra)
    | |- context [Rltb (?a + dy - ?c) (?b + dy)] =>
        replace (Rltb (a + dy - c) (b + dy)) with (Rltb (a - c) b)
          by (apply Rltb_ext; lra)
    end.

Lemma D_internal_translation (dx dy dz : R) (M : list Point) :
  (21 <= List.length M)%nat ->
  D_left._detect_d_internal (Some (translate dx dy dz M)) =
  D_left._detect_d_internal (Some M).
Proof.
  intros Hlen. explode21 M Hlen.
  unfold D_left._detect_d_internal, D_left.is_curled.
  cbn [translate map bind getitem nth_error]. cbv zeta.
  repeat (rewrite angle_deg_translate;
          match goal with
          | |- bind (angle_deg ?a ?b ?c) _ = _ =>
              let v := fresh "deg" in
              let E := fresh "E" in
              destruct (angle_deg_returns a b c) as [v E];
              rewrite E; cbn [bind]; clear E
          | |- bind (bind (angle_deg ?a ?b ?c) _) _ = _ =>
              let v := fresh "deg" in
              let E := fresh "E" in
              destruct (angle_deg_returns a b c) as [v E];
              rewrite E; cbn [bind]; clear E
          end).
  rewrite !distance_translate.
  cbn [translate_point x y z].
  unshift dy. reflexivity.
Qed.

Lemma F_internal_translation (dx dy dz : R) (M : list Point) :
  (21 <= List.length M)%nat ->
  F_left._detect_f_real_camera_internal (Some (translate dx dy dz M)) =
  F_left._detect_f_real_camera_internal (Some M).
Proof.
  intros Hlen. explode21 M Hlen.
  unfold F_left._detect_f_real_camera_internal,
    F_left.is_finger_straight_and_extended.
  cbn [translate map bind getitem nth_error fold_left]. cbv zeta.
  rewrite !distance_translate, !vec_translate.
  cbn [translate_point x y z].
  unshift dy. reflexivity.
Qed.

(** X18.  The D and F rules depend on the shape of the hand only, not on
    where it is: moving every landmark of a list by the same displacement
    (in x, y and z) changes the answer of none of the four D and F
    detectors, on any list. *)
Theorem X18_D_and_F_translation_invariant (dx dy dz : R) (L : list Point) :
  D_right.detect_right_hand (Some (translate dx dy dz L)) =
    D_right.detect_right_hand (Some L) /\
  D_left.detect_left_hand (Some (translate dx dy dz L)) =
    D_left.detect_left_hand (Some L) /\
  F_right.detect_right_hand (Some (translate dx dy dz L)) =
    F_right.detect_right_hand (Some L) /\
  F_left.detect_left_hand_f_real_camera (Some (translate dx dy dz L)) =
    F_left.detect_left_hand_f_real_camera (Some L).
Proof.
  assert (Hg : invalid_input (Some (translate dx dy dz L)) =
               invalid_input (Some L))
    by (apply invalid_input_same_length, translate_length).
  unfold D_right.detect_right_hand, D_left.detect_left_hand,
    F_right.detect_right_hand, F_left.detect_left_hand_f_real_camera.
  rewrite Hg.
  destruct (invalid_input (Some L)) eqn:Hinv; [repeat split |].
  assert (Hlen : (21 <= List.length L)%nat).
  { destruct (valid_or_invalid (Some L)) as [H | [L' [E H]]];
      [congruence | injection E as <-; exact H]. }
  assert (Hm : (21 <= List.length (mirror L))%nat)
    by (rewrite mirror_length; exact Hlen).
  repeat split.
  - apply (D_internal_translation dx dy dz L Hlen).
  - cbv zeta. rewrite mirror_translate.
    apply (D_internal_translation (- dx) dy dz (mirror L) Hm).
  - apply (F_internal_translation dx dy dz L Hlen).
  - cbv zeta. rewrite mirror_translate.
    apply (F_internal_translation (- dx) dy dz (mirror L) Hm).
Qed.

(* ------------------------------------------------------------------ *)
(** ** The handler's answers                                           *)
(* ------------------------------------------------------------------ *)

Lemma check_letters_range
    (Bl Cr : option (list Point) -> result pyval)
    (letters : list string) (t : string) (L : list Point)
    (label : option string) (t' : string) :
  ws_server.check_letters Bl Cr letters t L label = Ok t' ->
  t' = t \/ In t' letters.
Proof.
  induction letters as [| letter rest IH]; intros H.
  - cbn in H. injection H as <-. now left.
  - rewrite check_letters_step in H.
    destruct (called_rule Bl Cr label letter _) as [v | e]; cbn [bind] in H;
      [| discriminate].
    destruct (truthy v).
    + injection H as <-. right; now left.
    + destruct (IH H) as [-> | Hin]; [now left | right; now right].
Qed.

Lemma check_hands_range
    (Bl Cr : option (list Point) -> result pyval)
    (hands : list (list Point * option string)) (t t' : string) :
  ws_server.check_hands Bl Cr hands t = Ok t' ->
  t' = t \/ In t' ws_server.LETTERS.
Proof.
  revert t. induction hands as [| [L label] rest IH]; intros t H.
  - cbn in H. injection H as <-. now left.
  - cbn [ws_server.check_hands] in H.
    destruct (ws_server.check_letters Bl Cr ws_server.LETTERS t L label)
      as [t1 | e] eqn:E1; cbn [bind] in H; [| discriminate].
    apply check_letters_range in E1.
    destruct (negb (t1 =? "")%string).
    + injection H as <-. exact E1.
    + apply IH in H. destruct H as [-> | Hin]; [exact E1 | now right].
Qed.

(** X19.  Whatever the frame holds (no hand, one hand, several hands,
    malformed landmark lists), the handler's response carries a
    translation that is [""] or one of the registered letters, and its
    status is ["success"], or ["error"] with an empty translation. *)
Theorem X19_response_is_a_letter_or_empty
    (Bl Cr : option (list Point) -> result pyval)
    (hands : list (list Point * option string)) :
  let r := ws_server.respond Bl Cr hands in
  In r.(ws_server.translation) ("" :: ws_server.LETTERS) /\
  (r.(ws_server.status) = "success" \/
   r.(ws_server.status) = "error" /\ r.(ws_server.translation) = "").
Proof.
  cbv zeta. unfold ws_server.respond.
  destruct (ws_server.check_hands Bl Cr hands "") as [t | e] eqn:E;
    cbn [ws_server.translation ws_server.status].
  - split; [| now left].
    apply check_hands_range in E. destruct E as [-> | Hin];
      [now left | now right].
  - split; [now left | right; split; reflexivity].
Qed.

Lemma called_rule_A_short
    (Bl Cr : option (list Point) -> result pyval)
    (label : option string) (L : list Point) :
  (List.length L < 21)%nat ->
  called_rule Bl Cr label "A" (Some (handler_points L)) = Raise IndexError.
Proof.
  intros Hlen. unfold called_rule.
  cbn [ws_server.lookup ws_server.letter_modules ws_server.LETTERS flat_map
       ws_server.import_module String.eqb Ascii.eqb Bool.eqb app find fst snd
       ws_server.right_detect_right_hand ws_server.left_detect_left_hand].
  destruct (ws_server.is_Left label).
  - rewrite A_left_short_list_raises
      by (rewrite handler_points_length; exact Hlen).
    reflexivity.
  - rewrite A_right_short_list_raises
      by (rewrite handler_points_length; exact Hlen).
    reflexivity.
Qed.

(** X20.  A frame whose first hand has fewer than 21 landmarks is answered
    with status ["error"] and an empty translation, whatever the
    handedness and whatever other hands follow: the A rule, tried first,
    raises. *)
Theorem X20_short_hand_gives_error_response
    (Bl Cr : option (list Point) -> result pyval)
    (L : list Point) (label : option string)
    (rest : list (list Point * option string)) :
  (List.length L < 21)%nat ->
  ws_server.respond Bl Cr ((L, label) :: rest) =
  {| ws_server.translation := ""; ws_server.status := "error" |}.
Proof.
  intros Hlen. unfold ws_server.respond. cbn [ws_server.check_hands].
  unfold ws_server.LETTERS. rewrite check_letters_step.
  rewrite (called_rule_A_short Bl Cr label L Hlen). reflexivity.
Qed.

Lemma X20_twenty_points_witness :
  ws_server.respond never_B_left never_C_right
    [(firstn 20 fist_pose, Some "Right")] =
  {| ws_server.translation := ""; ws_server.status := "error" |}.
Proof.
  apply (X20_short_hand_gives_error_response never_B_left never_C_right
           (firstn 20 fist_pose) (Some "Right") []).
  cbn. lia.
Defined.

Lemma classify_is_check_letters
    (Bl Cr : option (list Point) -> result pyval)
    (L : list Point) (label : option string) :
  ws_server.classify Bl Cr L label =
  ws_server.check_letters Bl Cr ws_server.LETTERS "" L label.
Proof.
  unfold ws_server.classify. cbn [ws_server.check_hands].
  apply (bind_same_branches _ (fun t => negb (t =? "")%string)).
Qed.

(** X21.  With several hands in a frame the first hand that matches a
    letter decides: its letter is the translation and the hands after it
    are not looked at; a hand that matches nothing passes the frame on to
    the remaining hands. *)
Theorem X21_first_matching_hand_decides
    (Bl Cr : option (list Point) -> result pyval)
    (L : list Point) (label : option string)
    (rest : list (list Point * option string)) (t : string) :
  ws_server.classify Bl Cr L label = Ok t ->
  ws_server.respond Bl Cr ((L, label) :: rest) =
  if (t =? "")%string
  then ws_server.respond Bl Cr rest
  else {| ws_server.translation := t; ws_server.status := "success" |}.
Proof.
  intros H. rewrite classify_is_check_letters in H.
  unfold ws_server.respond. cbn [ws_server.check_hands].
  rewrite H. cbn [bind].
  destruct (String.eqb_spec t "") as [-> | Hne]; cbn [negb]; reflexivity.
Qed.

Lemma X21_fist_then_garbage_witness :
  ws_server.respond never_B_left never_C_right
    [(fist_pose, Some "Right"); ([], None)] =
  {| ws_server.translation := "A"; ws_server.status := "success" |}.
Proof.
  apply (X21_first_matching_hand_decides never_B_left never_C_right
           fist_pose (Some "Right") [([], None)] "A").
  apply fist_classified_A. discriminate.
Defined.

(* ------------------------------------------------------------------ *)
(** ** Mirroring, and what lies beyond the 21st landmark               *)
(* ------------------------------------------------------------------ *)

(** X24.  The D and F left-hand detectors are the right-hand detectors
    composed with the mirror, on every input: [None], short lists and
    lists of any length. *)
Theorem X24_left_detector_is_right_detector_on_mirror
    (landmarks : option (list Point)) :
  D_left.detect_left_hand landmarks =
    D_right.detect_right_hand (option_map mirror landmarks) /\
  F_left.detect_left_hand_f_real_camera landmarks =
    F_right.detect_right_hand (option_map mirror landmarks).
Proof.
  destruct landmarks as [L |]; [| split; reflexivity].
  cbn [option_map].
  unfold D_left.detect_left_hand, D_right.detect_right_hand,
    F_left.detect_left_hand_f_real_camera, F_right.detect_right_hand.
  rewrite <- (invalid_input_same_length L (mirror L))
    by (symmetry; apply mirror_length).
  destruct (invalid_input (Some L)); split; reflexivity.
Qed.

Lemma A_right_reads_first_21 (L : list Point) :
  (21 <= List.length L)%nat ->
  A_right.detect_right_hand (Some L) =
  A_right.detect_right_hand (Some (firstn 21 L)).
Proof. intros Hlen. explode21 L Hlen. reflexivity. Qed.

Lemma A_left_reads_first_21 (L : list Point) :
  (21 <= List.length L)%nat ->
  A_left.detect_left_hand (Some L) =
  A_left.detect_left_hand (Some (firstn 21 L)).
Proof. intros Hlen. explode21 L Hlen. reflexivity. Qed.

Lemma C_internal_reads_first_21 (L : list Point) :
  (21 <= List.length L)%nat ->
  C_left._detect_c_shape_internal (Some L) =
  C_left._detect_c_shape_internal (Some (firstn 21 L)).
Proof. intros Hlen. explode21 L Hlen. reflexivity. Qed.

Lemma D_internal_reads_first_21 (L : list Point) :
  (21 <= List.length L)%nat ->
  D_left._detect_d_internal (Some L) =
  D_left._detect_d_internal (Some (firstn 21 L)).
Proof. intros Hlen. explode21 L Hlen. reflexivity. Qed.

Lemma F_internal_reads_first_21 (L : list Point) :
  (21 <= List.length L)%nat ->
  F_left._detect_f_real_camera_internal (Some L) =
  F_left._detect_f_real_camera_internal (Some (firstn 21 L)).
Proof. intros Hlen. explode21 L Hlen. reflexivity. Qed.

Lemma firstn_21_valid {A} (L : list A) :
  (21 <= List.length L)%nat -> invalid_input (Some (firstn 21 L)) = false.
Proof.
  intros Hlen. apply invalid_input_false. rewrite length_firstn. lia.
Qed.

Lemma E_left_reads_first_21 (L : list Point) :
  (21 <= List.length L)%nat ->
  E_left.detect_left_hand (Some L) =
  E_left.detect_left_hand (Some (firstn 21 L)).
Proof.
  intros Hlen. unfold E_left.detect_left_hand.
  rewrite (invalid_input_false L Hlen), (firstn_21_valid L Hlen).
  explode21 L Hlen. reflexivity.
Qed.

Lemma mirror_firstn (n : nat) (L : list Point) :
  mirror (firstn n L) = firstn n (mirror L).
Proof. unfold mirror. symmetry. apply firstn_map. Qed.

(** X25.  Landmarks after the 21st are never read: on a list of 21 or
    more points, the A, C, D, E and F detectors answer what they answer
    on the list cut down to its first 21 points. *)
Theorem X25_only_first_21_landmarks_read (L : list Point) :
  (21 <= List.length L)%nat ->
  let L21 := firstn 21 L in
  A_right.detect_right_hand (Some L) = A_right.detect_right_hand (Some L21) /\
  A_left.detect_left_hand (Some L) = A_left.detect_left_hand (Some L21) /\
  C_left.detect_left_hand (Some L) = C_left.detect_left_hand (Some L21) /\
  D_left.detect_left_hand (Some L) = D_left.detect_left_hand (Some L21) /\
  E_left.detect_left_hand (Some L) = E_left.detect_left_hand (Some L21) /\
  F_right.detect_right_hand (Some L) = F_right.detect_right_hand (Some L21) /\
  F_left.detect_left_hand_f_real_camera (Some L) =
    F_left.detect_left_hand_f_real_camera (Some L21).
Proof.
  intros Hlen L21. subst L21.
  assert (Hm : (21 <= List.length (mirror L))%nat)
    by (rewrite mirror_length; exact Hlen).
  split; [apply A_right_reads_first_21, Hlen |].
  split; [apply A_left_reads_first_21, Hlen |].
  unfold C_left.detect_left_hand, D_left.detect_left_hand,
    F_left.detect_left_hand_f_real_camera, F_right.detect_right_hand.
  rewrite (invalid_input_false L Hlen), (firstn_21_valid L Hlen).
  cbv zeta. rewrite !mirror_firstn.
  split; [apply C_internal_reads_first_21, Hm |].
  split; [apply D_internal_reads_first_21, Hm |].
  split; [apply E_left_reads_first_21, Hlen |].
  split; [| apply F_internal_reads_first_21, Hm].
  explode21 L Hlen. reflexivity.
Qed.

Lemma X25_22_points_witness :
  A_right.detect_right_hand (Some (fist_pose ++ [Point_xy 0 0])) =
  A_right.detect_right_hand (Some (firstn 21 (fist_pose ++ [Point_xy 0 0]))).
Proof.
  refine (proj1 (X25_only_first_21_landmarks_read
                   (fist_pose ++ [Point_xy 0 0]) _)).
  cbn. lia.
Defined.

(* ------------------------------------------------------------------ *)
(** ** The arc test of the C rule                                      *)
(* ------------------------------------------------------------------ *)

(** X26.  The loop with [break] that checks the fingertip arc answers
    true exactly when no two consecutive distances differ by more than
    0.08. *)
Theorem X26_smooth_arc_loop_checks_all_neighbours (ds : list R) :
  C_left.smooth_arc_loop ds = true <->
  (forall i d0 d1,
     nth_error ds i = Some d0 -> nth_error ds (S i) = Some d1 ->
     Rabs (d0 - d1) <= 0.08).
Proof.
  induction ds as [| a [| b rest] IH].
  - split; [intros _ i d0 d1 H | reflexivity]. destruct i; discriminate.
  - split; [intros _ i d0 d1 H0 H1 | reflexivity].
    destruct i as [| [| i]]; discriminate.
  - cbn [C_left.smooth_arc_loop].
    destruct (Rlt_dec 0.08 (Rabs (a - b))) as [Hbig | Hsmall].
    + replace (0.08 <? Rabs (a - b)) with true
        by (symmetry; apply Rltb_true; exact Hbig).
      split; [discriminate |].
      intros H. specialize (H 0%nat a b eq_refl eq_refl). lra.
    + replace (0.08 <? Rabs (a - b)) with false
        by (symmetry; apply Rltb_false; lra).
      rewrite IH. split.
      * intros H [| i] d0 d1 H0 H1.
        -- cbn in H0, H1. injection H0 as <-; injection H1 as <-. lra.
        -- apply (H i); assumption.
      * intros H i d0 d1 H0 H1. apply (H (S i)); assumption.
Qed.

(* ------------------------------------------------------------------ *)
(** ** More on the C and D rules                                       *)
(* ------------------------------------------------------------------ *)

Ltac cancel_shift d :=
  repeat match goal with
    | |- context [?a + d - (?b + d)] =>
        replace (a + d - (b + d)) with (a - b) by ring
    end.

Lemma C_internal_translation (dx dy dz : R) (M : list Point) :
  (21 <= List.length M)%nat ->
  C_left._detect_c_shape_internal (Some (translate dx dy dz M)) =
  C_left._detect_c_shape_internal (Some M).
Proof.
  intros Hlen. explode21 M Hlen.
  unfold C_left._detect_c_shape_internal.
  cbn [translate map bind getitem nth_error fold_left all forallb]. cbv zeta.
  rewrite !distance_translate.
  cbn [translate_point x y z].
  cancel_shift dx. cancel_shift dy. cancel_shift dz.
  unshift dz. reflexivity.
Qed.

(** X27.  The C left-hand rule, too, depends on the shape of the hand
    only: moving every landmark by the same displacement in x, y and z
    leaves its answer unchanged, on any list. *)
Theorem X27_C_left_translation_invariant (dx dy dz : R) (L : list Point) :
  C_left.detect_left_hand (Some (translate dx dy dz L)) =
  C_left.detect_left_hand (Some L).
Proof.
  unfold C_left.detect_left_hand.
  rewrite (invalid_input_same_length (translate dx dy dz L) L)
    by apply translate_length.
  destruct (invalid_input (Some L)) eqn:Hinv; [reflexivity |].
  assert (Hlen : (21 <= List.length L)%nat).
  { destruct (valid_or_invalid (Some L)) as [H | [L' [E H]]];
      [congruence | injection E as <-; exact H]. }
  cbv zeta. rewrite mirror_translate.
  apply C_internal_translation. rewrite mirror_length. exact Hlen.
Qed.

(** X28.  The D rule has absolute floors: whatever the rest of the hand
    looks like, it answers [False] when the index tip is not at least
    0.03 above the index MCP, when the thumb tip is within 0.03 of the
    index tip, or when the index and middle tips are within 0.05 of each
    other. *)
Theorem X28_D_right_absolute_floors (L : list Point) :
  (lm L 8).(y) >= (lm L 5).(y) - 0.03 \/
  distance (lm L 4) (lm L 8) <= 0.03 \/
  distance (lm L 8) (lm L 12) <= 0.05 ->
  D_right.detect_right_hand (Some L) = Ok false.
Proof.
  intros H.
  destruct (valid_or_invalid (Some L)) as [Hinv | [L' [E Hlen]]].
  - apply (guarded_detectors_no_match (Some L) Hinv).
  - injection E as <-.
    unfold D_right.detect_right_hand.
    rewrite (invalid_input_false L Hlen).
    explode21 L Hlen. unfold lm in H. cbn [nth] in H.
    unfold D_right.is_curled.
    cbn [bind getitem nth_error]. cbv zeta.
    settle_angles.
    destruct H as [H | [H | H]].
    + replace (y p7 <? y p4 - 0.03) with false
        by (symmetry; apply Rltb_false; lra).
      rewrite andb_false_r. reflexivity.
    + match goal with
      | |- context [Rltb (Rmax ?a 0.03) (distance p3 p7)] =>
          pose proof (Rmax_r a 0.03);
          replace (Rltb (Rmax a 0.03) (distance p3 p7)) with false
            by (symmetry; apply Rltb_false; lra)
      end.
      rewrite andb_false_r. reflexivity.
    + match goal with
      | |- context [Rltb (Rmax ?a 0.05) (distance p7 p11)] =>
          pose proof (Rmax_r a 0.05);
          replace (Rltb (Rmax a 0.05) (distance p7 p11)) with false
            by (symmetry; apply Rltb_false; lra)
      end.
      rewrite andb_false_r. reflexivity.
Qed.

Lemma X28_collapsed_hand_witness :
  D_right.detect_right_hand (Some (repeat (Point_xy 0.5 0.5) 21)) = Ok false.
Proof.
  apply (X28_D_right_absolute_floors (repeat (Point_xy 0.5 0.5) 21)).
  left. unfold lm. cbn [repeat nth y Point_xy]. lra.
Defined.

(** X29.  Mirroring reverses the palm orientation seen by the C rule:
    on the raw left-hand coordinates, a palm whose cross product
    (index_MCP - wrist) x (pinky_MCP - wrist) has a positive z component
    is always answered [False]. *)
Theorem X29_C_left_rejects_positive_raw_cross (L : list Point) :
  0 < item2 (cross (vec (lm L 0) (lm L 5)) (vec (lm L 0) (lm L 17))) ->
  C_left.detect_left_hand (Some L) = Ok false.
Proof.
  intros H.
  destruct (valid_or_invalid (Some L)) as [Hinv | [L' [E Hlen]]].
  - apply (guarded_detectors_no_match (Some L) Hinv).
  - injection E as <-.
    unfold C_left.detect_left_hand.
    rewrite (invalid_input_false L Hlen).
    explode21 L Hlen. unfold lm in H. cbn [nth] in H.
    unfold C_left._detect_c_shape_internal.
    cbn [mirror map bind getitem nth_error]. cbv zeta.
    match goal with
    | |- context [Rltb (item2 ?n) 0] =>
        replace (Rltb (item2 n) 0) with true; [reflexivity |]
    end.
    symmetry; apply Rltb_true.
    unfold item2, cross, vec, mirror_point in *. cbn [x y z] in *. lra.
Qed.

Lemma X29_flat_hand_witness :
  C_left.detect_left_hand (Some flat_hand_pose) = Ok false.
Proof.
  apply (X29_C_left_rejects_positive_raw_cross flat_hand_pose).
  unfold lm, flat_hand_pose.
  cbn [nth item2 cross vec x y z Point_xy]. lra.
Defined.
